(** * Verification of [ppgmle.py]: the maximum-likelihood trainer of a
      spatio-temporal Hawkes point process.

    The file embeds [MLE_Hawkes_Generator] (its constructor, [log_likelihood]
    and [train]) and proves the properties of the specification about them.

    Layout of the embedding:
    - Python exceptions are values of [exn]; code that can raise returns
      [py A = exn + A] (graph construction) or runs in the monad [M]
      (a session: variable store, random generator, output log);
    - a TensorFlow tensor of the graph is a function of the current values
      of the variables and of the fed batch ([tensor]); evaluating it records
      every call of the intensity model's [log_conditional_pdf] ([traced]);
    - [float32] scalars with their operations, the intensity model
      ([tfgen.SpatialTemporalHawkes]), automatic differentiation and numpy's
      random generator are not in the trainer's source: they are the
      fields of the class [Backend]. *)

From Stdlib Require Import List Arith Lia Bool Permutation ZArith.
Import ListNotations.

Set Implicit Arguments.

(** ** Python exceptions *)

Inductive exn : Type :=
| NameError                 (* a free name that is not bound *)
| ZeroDivisionError         (* [n_data / 0] on Python numbers *)
| IndexError                (* numpy index out of bounds *)
| ValueError                (* a slice or a feed that does not fit a static shape *)
| AttributeError            (* [minimize] on a Python float, which has no [dtype] *)
| FailedPreconditionError.  (* a variable read before its initialisation *)

Definition py (A : Type) : Type := (exn + A)%type.

Definition py_ret {A : Type} (a : A) : py A := inr a.

Definition py_bind {A B : Type} (c : py A) (k : A -> py B) : py B :=
  match c with
  | inl e => inl e
  | inr a => k a
  end.

Definition py_raise {A : Type} (e : exn) : py A := inl e.

(** A [for] loop whose body may raise and which threads the loop's variables. *)
Fixpoint py_for {A E : Type} (elems : list E) (body : A -> E -> py A) (a : A) : py A :=
  match elems with
  | [] => py_ret a
  | e :: rest => py_bind (body a e) (py_for rest body)
  end.

(** [range(a, b)] and [range(n)]. *)
Definition range2 (a b : nat) : list nat := seq a (b - a).
Definition range (n : nat) : list nat := range2 0 n.

(** The module's global names: [batch_size] is bound only by the script part
    ([if __name__ == "__main__"]). *)
Record globals : Type := { g_batch_size : option nat }.

Definition lookup_batch_size (G : globals) : py nat :=
  match g_batch_size G with
  | Some n => py_ret n
  | None => py_raise NameError
  end.

(** The static shape [[batch_size, None, data_dim]] of [tf.placeholder]. *)
Record placeholder : Type := { ph_rows : nat; ph_dim : nat }.

(** [tf.cast(_, tf.float32)] of a boolean: the floats 1.0 and 0.0, which are
    exact, as integers. *)
Definition cast_float32 (b : bool) : Z := if b then 1%Z else 0%Z.

(** ** What the trainer takes from outside *)

(** The variables of the Hawkes model, as [train] prints them. *)
Record hawkes_vars (scalar : Type) : Type :=
  { mu : scalar; beta : scalar; sigma_x : scalar; sigma_y : scalar }.

Class Backend : Type :=
  { scalar : Type;                               (* a float32 value *)
    zero : scalar;                               (* [0.] *)
    add : scalar -> scalar -> scalar;            (* [+] *)
    gt0 : scalar -> bool;                        (* [_ > 0] *)
    neg1_mul : scalar -> scalar;                 (* [-1 * _] *)
    div_int : scalar -> nat -> scalar;           (* [_ / n], [n] an integer *)
    (* the initial values of the model's variables *)
    init_vars : hawkes_vars scalar;
    (* [self.hawkes.log_conditional_pdf(points, keep_latest_k)], as a
       function of the current values of the variables too *)
    log_conditional_pdf :
      hawkes_vars scalar -> list (list scalar) -> option nat -> scalar;
    (* reverse-mode differentiation of a tensor in the variables, and the
       update [var - lr * grad] of [GradientDescentOptimizer] *)
    gradients :
      (hawkes_vars scalar -> scalar) -> hawkes_vars scalar -> hawkes_vars scalar;
    apply_gradient_descent :
      scalar -> hawkes_vars scalar -> hawkes_vars scalar -> hawkes_vars scalar;
    (* numpy's global random generator and [np.random.shuffle] *)
    rng : Type;
    np_random_shuffle : rng -> list nat -> list nat * rng }.

Section Trainer.

Context {B : Backend}.

Definition vars : Type := hawkes_vars scalar.
Definition row : Type := list scalar.            (* one event: [data_dim] numbers *)
Definition sequence : Type := list row.          (* [seq_len, data_dim] *)
Definition tensor3 : Type := list sequence.      (* [n, seq_len, data_dim] *)

(** *** Evaluation of tensors, with the calls of the density recorded *)

Record pdf_call : Type :=
  { call_vars : vars; call_points : sequence; call_k : option nat }.

Definition traced (A : Type) : Type := (A * list pdf_call)%type.

Definition tr_ret {A : Type} (a : A) : traced A := (a, []).

Definition tr_bind {A B : Type} (c : traced A) (k : A -> traced B) : traced B :=
  let (a, l1) := c in
  let (b, l2) := k a in
  (b, l1 ++ l2).

Definition tr_map {A B : Type} (f : A -> B) (c : traced A) : traced B :=
  tr_bind c (fun a => tr_ret (f a)).

Definition value {A : Type} (c : traced A) : A := fst c.
Definition calls {A : Type} (c : traced A) : list pdf_call := snd c.

(** A tensor of the graph: its value under the variables and the fed batch. *)
Definition tensor (A : Type) : Type := vars -> tensor3 -> traced A.

Definition pdf_op (theta : vars) (points : sequence) (k : option nat)
  : traced scalar :=
  (log_conditional_pdf theta points k,
   [{| call_vars := theta; call_points := points; call_k := k |}]).

(** [tf.scan(fn, elems, initializer)]: the loop carries the accumulator and
    the array of outputs; [scan] is the stacked outputs. *)
Fixpoint scan_loop {A E : Type} (fn : A -> E -> traced A) (elems : list E)
         (a : A) (outs : list A) : traced (A * list A) :=
  match elems with
  | [] => tr_ret (a, outs)
  | e :: rest =>
      tr_bind (fn a e) (fun a' => scan_loop fn rest a' (outs ++ [a']))
  end.

Definition scan {A E : Type} (fn : A -> E -> traced A) (elems : list E)
           (initializer : A) : traced (list A) :=
  tr_map snd (scan_loop fn elems initializer []).

(** [tf.reduce_sum] of a vector, summed from the left, starting at [0.]
    (TensorFlow does not fix the order; no lemma below reorders a sum). *)
Definition reduce_sum (xs : list scalar) : scalar := fold_left add xs zero.

(** [row[0]], the time of an event, and [seq[:, 0]]. *)
Definition time (r : row) : scalar := nth 0 r zero.
Definition times (s : sequence) : list scalar := map time s.

(** [tf.cast(seq[:, 0] > 0, tf.float32)] *)
Definition mask_t (s : sequence) : list Z :=
  map (fun t => cast_float32 (gt0 t)) (times s).

(** [tf.boolean_mask(seq, mask)]: the rows whose mask entry is not zero. *)
Definition boolean_mask (s : sequence) (mask : list Z) : sequence :=
  map fst (filter (fun p => negb (Z.eqb (snd p) 0)) (combine s mask)).

(** The body of the loop of [log_likelihood] for one sequence, with the
    scan's initializer as an argument (the source passes [0.]). *)
Definition scan_terms (keep_latest_k : option nat) (initializer : scalar)
           (s : sequence) (theta : vars) : traced (list scalar) :=
  let trunc_seq := boolean_mask s (mask_t s) in
  let seq_len := length trunc_seq in
  scan (fun (a : scalar) (i : nat) =>
          pdf_op theta (firstn i trunc_seq) keep_latest_k)
       (range2 1 (seq_len + 1))
       initializer.

Definition seq_loglik (keep_latest_k : option nat) (initializer : scalar)
           (s : sequence) (theta : vars) : traced scalar :=
  tr_map reduce_sum (scan_terms keep_latest_k initializer s theta).

(** [seq = self.input_seqs[b, :, :]], whose column 0 is read next
    ([seq[:, 0]]): both indices are checked against the static shape when the
    graph is built; under it the fed batch has a row [b]. *)
Definition slice_b (ph : placeholder) (b : nat) : py (tensor sequence) :=
  if (b <? ph_rows ph) && (1 <=? ph_dim ph)
  then py_ret (fun (_ : vars) (feed : tensor3) => tr_ret (nth b feed []))
  else py_raise ValueError.

(** One pass of the loop of [log_likelihood] (lines 41 to 49): the graph of
    [loglikli + reduce_sum(scan(...))] for the sequence [b]. *)
Definition log_likelihood_body (input_seqs : placeholder) (keep_latest_k : option nat)
           (loglikli : tensor scalar) (b : nat) : py (tensor scalar) :=
  py_bind (slice_b input_seqs b) (fun seq =>
  py_ret (fun theta feed =>
            tr_bind (loglikli theta feed) (fun acc =>
            tr_bind (seq theta feed) (fun s =>
            tr_bind (seq_loglik keep_latest_k zero s theta) (fun term =>
            tr_ret (add acc term)))))).

(** [log_likelihood(self, S, keep_latest_k)]; of [self] it reads
    [input_seqs] (and [hawkes]); [S] is not used. This is the graph of what
    it returns: [loglikli = 0.] is the constant [0.] until the first [+=]. *)
Definition log_likelihood (G : globals) (input_seqs : placeholder)
           (keep_latest_k : option nat) : py (tensor scalar) :=
  py_bind (lookup_batch_size G) (fun batch_size =>
  py_for (range batch_size)
         (log_likelihood_body input_seqs keep_latest_k)
         (fun _ _ => tr_ret zero)).

(** The Python value of [loglikli]: the float [0.] of line 39 as long as the
    loop has made no pass, a tensor once [+=] has added a tensor to it. *)
Inductive loss_value : Type :=
| PyFloat (x : scalar)
| TensorValue (t : tensor scalar).

Definition as_tensor (v : loss_value) : tensor scalar :=
  match v with
  | PyFloat x => fun _ _ => tr_ret x
  | TensorValue t => t
  end.

(** [log_likelihood] again, returning the Python value: the same loop, which
    keeps whether [loglikli] is still a float. *)
Definition log_likelihood_value (G : globals) (input_seqs : placeholder)
           (keep_latest_k : option nat) : py loss_value :=
  py_bind (lookup_batch_size G) (fun batch_size =>
  py_for (range batch_size)
         (fun (loglikli : loss_value) (b : nat) =>
            py_bind (log_likelihood_body input_seqs keep_latest_k
                                         (as_tensor loglikli) b)
                    (fun t => py_ret (TensorValue t)))
         (PyFloat zero)).

(** *** The object and its constructor *)

(** The operation [GradientDescentOptimizer(lr).minimize(loss)]. *)
Record train_op : Type := { op_lr : scalar; op_loss : tensor scalar }.

Record MLE_Hawkes_Generator : Type :=
  { batch_size : nat;
    input_seqs : placeholder;
    cost : tensor scalar;
    optimizer : train_op }.

(** [__init__]. Inside it [batch_size] is the argument. [T], [S] and [C] only
    configure the intensity model, which is [log_conditional_pdf] here.
    When [log_likelihood] returns the float [0.], line 31 is a division of
    Python numbers, which raises for [batch_size = 0], and otherwise leaves a
    float in [self.cost], on which [minimize] raises (line 32). *)
Definition MLE_Hawkes_Generator_init (G : globals) (batch_size data_dim : nat)
           (keep_latest_k : option nat) (lr : scalar) : py MLE_Hawkes_Generator :=
  let input_seqs := {| ph_rows := batch_size; ph_dim := data_dim |} in
  py_bind (log_likelihood_value G input_seqs keep_latest_k) (fun v =>
  match v with
  | PyFloat _ =>
      if batch_size =? 0
      then py_raise ZeroDivisionError
      else py_raise AttributeError
  | TensorValue loglikli =>
      let cost : tensor scalar :=
        fun theta feed =>
          tr_map (fun v => div_int (neg1_mul v) batch_size) (loglikli theta feed) in
      py_ret {| batch_size := batch_size;
                input_seqs := input_seqs;
                cost := cost;
                optimizer := {| op_lr := lr; op_loss := cost |} |}
  end).

(** *** The session *)

Inductive line : Type :=
| ParametersInitialized
| EpochLine (epoch n_batches batch_size : nat)
| TrainingCost (avg_train_cost : scalar)
| FinalVars (mu beta sigma_x sigma_y : scalar).

Inductive action : Type :=
| InitVars                                   (* the initializer assigns [init_vars] *)
| EvalCost (theta : vars) (feed : tensor3)   (* the cost tensor is evaluated *)
| ApplyGradient (theta theta' : vars)        (* the optimizer assigns [theta'] *)
| Printed (l : line).

Record world : Type :=
  { w_vars : option vars;     (* the session's variables, once initialised *)
    w_rng : rng;
    w_log : list action }.

Definition M (A : Type) : Type := world -> py A * world.

Definition ret {A : Type} (a : A) : M A := fun w => (inr a, w).

Definition bind {A B : Type} (c : M A) (k : A -> M B) : M B :=
  fun w =>
    match c w with
    | (inl e, w') => (inl e, w')
    | (inr a, w') => k a w'
    end.

Definition lift {A : Type} (c : py A) : M A := fun w => (c, w).

Definition emit (a : action) : M unit :=
  fun w => (inr tt, {| w_vars := w_vars w; w_rng := w_rng w;
                       w_log := w_log w ++ [a] |}).

Definition read_vars : M vars :=
  fun w =>
    match w_vars w with
    | Some theta => (inr theta, w)
    | None => (inl FailedPreconditionError, w)
    end.

Definition write_vars (theta : vars) : M unit :=
  fun w => (inr tt, {| w_vars := Some theta; w_rng := w_rng w; w_log := w_log w |}).

Definition shuffle (ids : list nat) : M (list nat) :=
  fun w =>
    let (ids', r) := np_random_shuffle (w_rng w) ids in
    (inr ids', {| w_vars := w_vars w; w_rng := r; w_log := w_log w |}).

Fixpoint M_for {A E : Type} (elems : list E) (body : A -> E -> M A) (a : A) : M A :=
  match elems with
  | [] => ret a
  | e :: rest => bind (body a e) (M_for rest body)
  end.

(** A fed value must fit the placeholder's static shape. *)
Definition fits (ph : placeholder) (feed : tensor3) : bool :=
  (length feed =? ph_rows ph) &&
  forallb (forallb (fun r : row => length r =? ph_dim ph)) feed.

Definition check_feed (ph : placeholder) (feed : tensor3) : M unit :=
  lift (if fits ph feed then py_ret tt else py_raise ValueError).

(** [sess.run(tf.global_variables_initializer())] *)
Definition run_init : M unit :=
  bind (write_vars init_vars) (fun _ => emit InitVars).

(** [sess.run(self.cost, feed_dict={self.input_seqs: feed})] *)
Definition run_cost (self : MLE_Hawkes_Generator) (feed : tensor3) : M scalar :=
  bind (check_feed (input_seqs self) feed) (fun _ =>
  bind read_vars (fun theta =>
  bind (emit (EvalCost theta feed)) (fun _ =>
  ret (value (cost self theta feed))))).

(** [sess.run(self.optimizer, feed_dict={self.input_seqs: feed})]: the
    gradient of the loss at the current variables, then one update. *)
Definition run_optimizer (self : MLE_Hawkes_Generator) (feed : tensor3) : M unit :=
  let op := optimizer self in
  bind (check_feed (input_seqs self) feed) (fun _ =>
  bind read_vars (fun theta =>
  bind (emit (EvalCost theta feed)) (fun _ =>
  let grad := gradients (fun th => value (op_loss op th feed)) theta in
  let theta' := apply_gradient_descent (op_lr op) theta grad in
  bind (write_vars theta') (fun _ =>
  emit (ApplyGradient theta theta'))))).

(** [sess.run([self.hawkes.mu, self.hawkes.beta, self.hawkes.sigma_x, self.hawkes.sigma_y])] *)
Definition run_vars : M vars := read_vars.

(** *** numpy *)

(** [np.arange(a, b)] and [np.arange(n)] *)
Definition arange2 (a b : nat) : list nat := range2 a b.
Definition arange (n : nat) : list nat := range n.

(** [a[idx]] for an array of indices [idx] (along the first axis). *)
Fixpoint take {A : Type} (a : list A) (idx : list nat) : py (list A) :=
  match idx with
  | [] => py_ret []
  | i :: rest =>
      match nth_error a i with
      | None => py_raise IndexError
      | Some x => py_bind (take a rest) (fun xs => py_ret (x :: xs))
      end
  end.

(** [np.mean] of a list of scalars: their sum divided by their number; for
    the empty list, [0.] divided by 0. *)
Definition np_mean (xs : list scalar) : scalar :=
  div_int (fold_left add xs zero) (length xs).

(** [int(n_data / batch_size)] on natural numbers: the quotient, which the
    float division and the truncation give for array sizes; Python raises
    when the divisor is 0. *)
Definition int_div (n d : nat) : py nat :=
  match d with
  | 0 => py_raise ZeroDivisionError
  | S _ => py_ret (n / d)
  end.

(** *** [train] *)

(** One pass of the loop over the batches (lines 80 to 91). *)
Definition train_batch (self : MLE_Hawkes_Generator) (expert_seqs : tensor3)
           (batch_size : nat) (shuffled_ids : list nat)
           (avg_train_cost : list scalar) (b : nat) : M (list scalar) :=
  let idx := arange2 (batch_size * b) (batch_size * (b + 1)) in
  bind (lift (take shuffled_ids idx)) (fun batch_train_ids =>
  bind (lift (take expert_seqs batch_train_ids)) (fun batch_train_seqs =>
  bind (run_optimizer self batch_train_seqs) (fun _ =>
  bind (run_cost self batch_train_seqs) (fun train_cost =>
  ret (avg_train_cost ++ [train_cost]))))).

(** One pass of the loop over the epochs (lines 73 to 96). *)
Definition train_epoch (self : MLE_Hawkes_Generator) (expert_seqs : tensor3)
           (batch_size n_data n_batches : nat) (epoch : nat) : M unit :=
  bind (shuffle (arange n_data)) (fun shuffled_ids =>
  bind (M_for (range n_batches)
              (train_batch self expert_seqs batch_size shuffled_ids) [])
       (fun avg_train_cost =>
  let avg_train_cost := np_mean avg_train_cost in
  bind (emit (Printed (EpochLine epoch n_batches batch_size))) (fun _ =>
  emit (Printed (TrainingCost avg_train_cost))))).

(** The data configuration, the epochs and the final print (lines 65 to 98). *)
Definition train_epochs (G : globals) (self : MLE_Hawkes_Generator) (epoches : nat)
           (expert_seqs : tensor3) : M unit :=
  let n_data := length expert_seqs in
  bind (lift (lookup_batch_size G)) (fun batch_size =>
  bind (lift (int_div n_data batch_size)) (fun n_batches =>
  bind (M_for (range epoches)
              (fun (_ : unit) epoch =>
                 train_epoch self expert_seqs batch_size n_data n_batches epoch)
              tt) (fun _ =>
  bind run_vars (fun theta =>
  emit (Printed (FinalVars (mu theta) (beta theta) (sigma_x theta) (sigma_y theta))))))).

Definition train (G : globals) (self : MLE_Hawkes_Generator) (epoches : nat)
           (expert_seqs : tensor3) (pretrained : bool) : M unit :=
  bind (if negb pretrained
        then bind (emit (Printed ParametersInitialized)) (fun _ => run_init)
        else ret tt) (fun _ =>
  train_epochs G self epoches expert_seqs).

End Trainer.

(** ** The notions of the specification *)

Section Notions.

Context {B : Backend}.

(** An event is valid when its time is strictly positive. *)
Definition valid (r : row) : bool := gt0 (time r).

(** The compacted sequence of the valid events, in their order. *)
Definition valid_events (s : sequence) : sequence := filter valid s.

(** The density of the [i]-th valid event given the valid events before it. *)
Definition term (theta : vars) (k : option nat) (s : sequence) (i : nat) : scalar :=
  log_conditional_pdf theta (firstn i (valid_events s)) k.

Definition term_call (theta : vars) (k : option nat) (s : sequence) (i : nat) : pdf_call :=
  {| call_vars := theta; call_points := firstn i (valid_events s); call_k := k |}.

(** The per-sequence log-likelihood: the sum of the terms [1 .. L]. *)
Definition seq_sum (theta : vars) (k : option nat) (s : sequence) : scalar :=
  fold_left add (map (term theta k s) (seq 1 (length (valid_events s)))) zero.

(** A plain fold that accumulates the sum of the terms of a sequence. *)
Fixpoint fold_terms (f : nat -> traced scalar) (elems : list nat) (acc : scalar)
  : traced scalar :=
  match elems with
  | [] => tr_ret acc
  | i :: rest => tr_bind (f i) (fun t => fold_terms f rest (add acc t))
  end.

(** The sequences that a loop over [range(n)] reads from a fed batch. *)
Definition scanned (n : nat) (feed : list sequence) : list sequence :=
  map (fun b => nth b feed []) (seq 0 n).

(** The calls of the density for one sequence, in the order of the scan. *)
Definition seq_calls (theta : vars) (k : option nat) (s : sequence) : list pdf_call :=
  map (term_call theta k s) (seq 1 (length (valid_events s))).

Definition plain_fold (k : option nat) (s : sequence) (theta : vars) : traced scalar :=
  let trunc_seq := valid_events s in
  fold_terms (fun i => pdf_op theta (firstn i trunc_seq) k)
             (range2 1 (length trunc_seq + 1)) zero.

(** One step of gradient descent on the cost of a batch. *)
Definition sgd_step (self : MLE_Hawkes_Generator) (theta : vars) (feed : tensor3) : vars :=
  apply_gradient_descent (op_lr (optimizer self)) theta
    (gradients (fun th => value (op_loss (optimizer self) th feed)) theta).

(** What the session logs for one batch: the optimizer's evaluation of the
    cost, its update, and the evaluation of the cost that is recorded. *)
Definition batch_log (theta theta' : vars) (feed : tensor3) : list action :=
  [EvalCost theta feed; ApplyGradient theta theta'; EvalCost theta' feed].

(** The batches of an epoch, one after the other: the final variables, the
    recorded costs and the log. *)
Fixpoint run_batches (self : MLE_Hawkes_Generator) (feeds : list tensor3) (theta : vars)
  : vars * list scalar * list action :=
  match feeds with
  | [] => (theta, [], [])
  | feed :: rest =>
      let theta' := sgd_step self theta feed in
      let '(theta_end, costs, log) := run_batches self rest theta' in
      (theta_end, value (cost self theta' feed) :: costs,
       batch_log theta theta' feed ++ log)
  end.

(** The [n] contiguous blocks of [size] indices of a list of indices. *)
Definition blocks (size n : nat) (ids : list nat) : list (list nat) :=
  map (fun b => firstn size (skipn (size * b) ids)) (seq 0 n).

(** The sequences of the data at the given indices. *)
Definition gather (expert_seqs : tensor3) (ids : list nat) : tensor3 :=
  map (fun i => nth i expert_seqs []) ids.

(** What the session logs at the end of an epoch. *)
Definition epoch_lines (epoch n_batches size : nat) (costs : list scalar) : list action :=
  [Printed (EpochLine epoch n_batches size); Printed (TrainingCost (np_mean costs))].

(** The epochs of a training run, one after the other, on [n_batches]
    batches of [size] sequences: the final variables, the final state of the
    random generator and the log. *)
Fixpoint run_epochs (self : MLE_Hawkes_Generator) (expert_seqs : tensor3)
         (size n_batches : nat) (epochs : list nat) (theta : vars) (r : rng)
  : vars * rng * list action :=
  match epochs with
  | [] => (theta, r, [])
  | epoch :: rest =>
      let (shuffled_ids, r') := np_random_shuffle r (arange (length expert_seqs)) in
      let '(theta', costs, log) :=
        run_batches self (map (gather expert_seqs) (blocks size n_batches shuffled_ids))
                    theta in
      let '(theta_end, r_end, log_end) :=
        run_epochs self expert_seqs size n_batches rest theta' r' in
      (theta_end, r_end, log ++ epoch_lines epoch n_batches size costs ++ log_end)
  end.

(** The state of the random generator after the shuffles of some epochs. *)
Fixpoint rng_after (n_data : nat) (epochs : list nat) (r : rng) : rng :=
  match epochs with
  | [] => r
  | _ :: rest => rng_after n_data rest (snd (np_random_shuffle r (arange n_data)))
  end.

(** The variables after a log of the session is replayed. *)
Fixpoint replay (log : list action) (v : option vars) : option vars :=
  match log with
  | [] => v
  | InitVars :: rest => replay rest (Some init_vars)
  | ApplyGradient _ theta' :: rest => replay rest (Some theta')
  | _ :: rest => replay rest v
  end.

Definition is_init (a : action) : bool :=
  match a with InitVars => true | _ => false end.

Definition is_eval (a : action) : bool :=
  match a with EvalCost _ _ => true | _ => false end.

Definition is_update (a : action) : bool :=
  match a with ApplyGradient _ _ => true | _ => false end.

(** A world with more log, and with other variables or generator. *)
Definition log_more (w : world) (l : list action) : world :=
  {| w_vars := w_vars w; w_rng := w_rng w; w_log := w_log w ++ l |}.

Definition with_vars (w : world) (theta : vars) : world :=
  {| w_vars := Some theta; w_rng := w_rng w; w_log := w_log w |}.

Definition with_rng (w : world) (r : rng) : world :=
  {| w_vars := w_vars w; w_rng := r; w_log := w_log w |}.

(** What the session logs before the first epoch. *)
Definition start_log (pretrained : bool) : list action :=
  if pretrained then [] else [Printed ParametersInitialized; InitVars].

(** The variables when the first epoch starts. *)
Definition start_vars (pretrained : bool) (w : world) : option vars :=
  if pretrained then w_vars w else Some init_vars.

Definition final_line (theta : vars) : action :=
  Printed (FinalVars (mu theta) (beta theta) (sigma_x theta) (sigma_y theta)).

(** A computation of the session only adds to the log, never logs an
    initialisation, and leaves the variables as the replay of what it logged. *)
Definition tracked {A : Type} (c : M A) : Prop :=
  forall w : world,
    exists l,
      w_log (snd (c w)) = w_log w ++ l /\
      w_vars (snd (c w)) = replay l (w_vars w) /\
      filter is_init l = [].

(** Every evaluation of the cost in a log is under the variables [after]. *)
Definition evals_under (l : list action) (after : option vars) : Prop :=
  forall theta feed, In (EvalCost theta feed) l -> after = Some theta.

(** The object with another value in its field [batch_size]. *)
Definition set_batch_size (self : MLE_Hawkes_Generator) (n : nat) : MLE_Hawkes_Generator :=
  {| batch_size := n; input_seqs := input_seqs self;
     cost := cost self; optimizer := optimizer self |}.

(** All the rows of the data have [d] numbers. *)
Definition rows_dim (d : nat) (expert_seqs : tensor3) : bool :=
  forallb (forallb (fun r : row => length r =? d)) expert_seqs.

End Notions.

Arguments tensor3 {B}.
Arguments world {B}.

(** ** The script part and further notions *)

Section Script.

Context {B : Backend}.

(** The globals once the script has run [batch_size = 50] (line 107). *)
Definition script_globals : globals := {| g_batch_size := Some 50 |}.

(** The block [with tf.Session() as sess:] of the script (lines 106 to 114),
    for the loaded array [seqs]: a fresh session, the object built with
    [batch_size=batch_size, data_dim=3, keep_latest_k=None, lr=1e-4], and
    [ppg.train(sess, epoches, seqs)] with [epoches = 15]. The float [1e-4]
    and the state of numpy's generator are arguments. *)
Definition script_session (seqs : tensor3) (lr : scalar) (r : rng) : py unit * world :=
  let sess := {| w_vars := None; w_rng := r; w_log := [] |} in
  let batch_size := 50 in
  let epoches := 15 in
  match MLE_Hawkes_Generator_init script_globals batch_size 3 None lr with
  | inl e => (inl e, sess)
  | inr ppg => train script_globals ppg epoches seqs false sess
  end.

(** Every evaluation of the cost and every update of a log is made at the
    variables that the log has reached, starting from [v]. *)
Fixpoint coherent (l : list action) (v : option vars) : Prop :=
  match l with
  | [] => True
  | InitVars :: rest => coherent rest (Some init_vars)
  | EvalCost theta _ :: rest => v = Some theta /\ coherent rest v
  | ApplyGradient theta theta' :: rest => v = Some theta /\ coherent rest (Some theta')
  | Printed _ :: rest => coherent rest v
  end.

(** A computation of the session that keeps its log coherent. *)
Definition coherently {A : Type} (c : M A) : Prop :=
  forall w : world,
    exists l,
      w_log (snd (c w)) = w_log w ++ l /\
      w_vars (snd (c w)) = replay l (w_vars w) /\
      coherent l (w_vars w).

(** A computation of the session that does not raise [IndexError] and whose
    result, when it returns, satisfies [Q]. *)
Definition in_bounds {A : Type} (Q : A -> Prop) (c : M A) : Prop :=
  forall w : world,
    match fst (c w) with
    | inl e => e <> IndexError
    | inr a => Q a
    end.

End Script.

(** ** A small executable backend, for running the trainer on examples

    Scalars are integers; the density is affine in [mu]; [gradients] is a
    forward difference in [mu]; the shuffle rotates the indices by the state
    of the generator. *)
Module Toy.

Local Open Scope Z_scope.

Definition vars_add_mu (theta : hawkes_vars Z) (d : Z) : hawkes_vars Z :=
  {| mu := mu theta + d; beta := beta theta;
     sigma_x := sigma_x theta; sigma_y := sigma_y theta |}.

Definition toy_pdf (theta : hawkes_vars Z) (points : list (list Z)) (k : option nat) : Z :=
  (mu theta * Z.of_nat (length points) - nth 0 (last points []) 0)%Z.

Definition toy_gradients (f : hawkes_vars Z -> Z) (theta : hawkes_vars Z) : hawkes_vars Z :=
  {| mu := f (vars_add_mu theta 1) - f theta; beta := 0; sigma_x := 0; sigma_y := 0 |}.

Definition toy_update (lr : Z) (theta grad : hawkes_vars Z) : hawkes_vars Z :=
  {| mu := mu theta - lr * mu grad; beta := beta theta - lr * beta grad;
     sigma_x := sigma_x theta - lr * sigma_x grad;
     sigma_y := sigma_y theta - lr * sigma_y grad |}.

Definition rotate (k : nat) (l : list nat) : list nat :=
  skipn (k mod length l)%nat l ++ firstn (k mod length l)%nat l.

#[global] Instance backend : Backend :=
  {| scalar := Z;
     zero := 0%Z;
     add := Z.add;
     gt0 := fun t => (0 <? t)%Z;
     neg1_mul := fun v => (-1 * v)%Z;
     div_int := fun v n => (v / Z.of_nat n)%Z;
     init_vars := {| mu := 1; beta := 1; sigma_x := 1; sigma_y := 1 |}%Z;
     log_conditional_pdf := toy_pdf;
     gradients := toy_gradients;
     apply_gradient_descent := toy_update;
     rng := nat;
     np_random_shuffle := fun r ids => (rotate r ids, S r) |}.

(** Sequences of four rows [time, x, y]; a row whose time is not positive
    is padding. *)
Definition seqA : list (list Z) := [[1; 5; 5]; [2; 6; 6]; [0; 0; 0]; [0; 0; 0]]%Z.
Definition seqB : list (list Z) := [[3; 7; 7]; [0; 0; 0]; [0; 0; 0]; [0; 0; 0]]%Z.
Definition seqPad : list (list Z) := [[0; 0; 0]; [-1; 4; 4]; [0; 0; 0]; [0; 0; 0]]%Z.
Definition seqMixed : list (list Z) := [[0; 9; 9]; [4; 1; 1]; [-2; 8; 8]; [5; 2; 2]]%Z.
Definition seqC : list (list Z) := [[6; 3; 3]; [7; 4; 4]; [8; 5; 5]; [9; 6; 6]]%Z.

Definition expert_seqs : list (list (list Z)) := [seqA; seqB; seqMixed; seqPad; seqC].

Definition G2 : globals := {| g_batch_size := Some 2%nat |}.
Definition G9 : globals := {| g_batch_size := Some 9%nat |}.

(** A fresh session, and one whose variables are initialised. *)
Definition start : world (B := backend) :=
  {| w_vars := None; w_rng := 1%nat; w_log := [] |}.

Definition ready : world (B := backend) :=
  {| w_vars := Some init_vars; w_rng := 1%nat; w_log := [] |}.

(** The object built for batches of two sequences of three numbers. *)
Definition self : MLE_Hawkes_Generator :=
  match MLE_Hawkes_Generator_init G2 2 3 None 1 with
  | inr s => s
  | inl _ =>
      {| batch_size := 0%nat;
         input_seqs := {| ph_rows := 0%nat; ph_dim := 0%nat |};
         cost := fun _ _ => tr_ret 0;
         optimizer := {| op_lr := 0; op_loss := fun _ _ => tr_ret 0 |} |}
  end.

(** Globals that disagree with the batch size of [self]. *)
Definition G1 : globals := {| g_batch_size := Some 1%nat |}.
Definition G0 : globals := {| g_batch_size := Some 0%nat |}.

(** 105 sequences: the five above, 21 times. *)
Definition many_seqs : list (list (list Z)) :=
  flat_map (fun _ : nat => expert_seqs) (seq 0 21).

(** [seqA] with its padding moved and changed. *)
Definition seqA' : list (list Z) := [[0; 8; 8]; [1; 5; 5]; [-3; 1; 1]; [2; 6; 6]]%Z.

End Toy.


(** ** Properties *)

Section Properties.

Context {B : Backend}.

(** *** Lists *)

Lemma in_firstn_in {A : Type} (n : nat) (l : list A) (x : A) :
  In x (firstn n l) -> In x l.
Proof.
  intros H. rewrite <- (firstn_skipn n l). apply in_or_app. left. exact H.
Qed.

(** *** Masking and the scan *)

Lemma boolean_mask_valid (s : sequence) :
  boolean_mask s (mask_t s) = valid_events s.
Proof.
  unfold boolean_mask, mask_t, times, valid_events.
  induction s as [|r s IH]; simpl; [reflexivity|].
  unfold valid at 1.
  destruct (gt0 (time r)); simpl; rewrite IH; reflexivity.
Qed.

Lemma range2_1 (n : nat) : range2 1 (n + 1) = seq 1 n.
Proof. unfold range2. f_equal. lia. Qed.

Lemma range_seq (n : nat) : range n = seq 0 n.
Proof. unfold range, range2. f_equal. lia. Qed.

(** A scan whose step ignores the accumulator. *)
Lemma scan_loop_ignore {A E : Type} (h : E -> traced A) (elems : list E)
      (a : A) (outs : list A) :
  scan_loop (fun _ e => h e) elems a outs =
  ((fold_left (fun _ e => value (h e)) elems a,
    outs ++ map (fun e => value (h e)) elems),
   flat_map (fun e => calls (h e)) elems).
Proof.
  revert a outs.
  induction elems as [|e elems IH]; intros a outs; simpl.
  - unfold tr_ret. rewrite app_nil_r. reflexivity.
  - unfold tr_bind. destruct (h e) as [v l] eqn:He.
    rewrite IH. simpl. rewrite <- app_assoc. reflexivity.
Qed.

Lemma scan_terms_eq (k : option nat) (init : scalar) (s : sequence) (theta : vars) :
  scan_terms k init s theta =
  (map (term theta k s) (seq 1 (length (valid_events s))),
   map (term_call theta k s) (seq 1 (length (valid_events s)))).
Proof.
  unfold scan_terms, scan, tr_map.
  rewrite boolean_mask_valid, range2_1.
  rewrite (scan_loop_ignore
             (fun i => pdf_op theta (firstn i (valid_events s)) k)).
  unfold tr_bind, tr_ret. simpl. rewrite app_nil_r.
  reflexivity.
Qed.

Lemma seq_loglik_eq (k : option nat) (init : scalar) (s : sequence) (theta : vars) :
  seq_loglik k init s theta =
  (seq_sum theta k s, seq_calls theta k s).
Proof.
  unfold seq_loglik, tr_map. rewrite scan_terms_eq.
  unfold tr_bind, tr_ret. simpl. rewrite app_nil_r. reflexivity.
Qed.


Lemma fold_terms_eq (theta : vars) (k : option nat) (f : nat -> sequence)
      (elems : list nat) (acc : scalar) :
  fold_terms (fun i => pdf_op theta (f i) k) elems acc =
  (fold_left add (map (fun i => log_conditional_pdf theta (f i) k) elems) acc,
   map (fun i => {| call_vars := theta; call_points := f i; call_k := k |}) elems).
Proof.
  revert acc.
  induction elems as [|i elems IH]; intros acc; simpl; [reflexivity|].
  unfold tr_bind, pdf_op. rewrite IH. reflexivity.
Qed.

(** *** The loop of [log_likelihood] over the batch *)

Lemma scanned_all (feed : list sequence) : scanned (length feed) feed = feed.
Proof.
  unfold scanned.
  apply nth_ext with (d := []) (d' := []).
  - rewrite length_map, length_seq. reflexivity.
  - intros n Hn. rewrite length_map, length_seq in Hn.
    rewrite nth_indep with (d' := nth 0 feed []) by (rewrite length_map, length_seq; lia).
    rewrite map_nth with (d := 0). rewrite seq_nth by lia. reflexivity.
Qed.

(** The value and the calls of the tensor that the loop has built, when it
    was built without an exception. *)
Lemma loglik_loop_inv (ph : placeholder) (k : option nat) (elems : list nat) :
  forall (acc loglikli : tensor scalar),
    py_for elems (log_likelihood_body ph k) acc = inr loglikli ->
    Forall (fun b => b < ph_rows ph /\ 1 <= ph_dim ph) elems /\
    forall theta feed,
      loglikli theta feed =
      (fold_left add (map (fun b => seq_sum theta k (nth b feed [])) elems)
                 (value (acc theta feed)),
       calls (acc theta feed) ++
       flat_map (fun b => seq_calls theta k (nth b feed [])) elems).
Proof.
  induction elems as [|b elems IH]; intros acc loglikli H; simpl in H.
  - inversion H; subst. split; [constructor|].
    intros theta feed. simpl. rewrite app_nil_r.
    destruct (loglikli theta feed); reflexivity.
  - unfold log_likelihood_body at 1, slice_b in H.
    destruct ((b <? ph_rows ph) && (1 <=? ph_dim ph)) eqn:Hc; simpl in H;
      [|discriminate].
    apply IH in H. destruct H as [HF H]. split.
    + constructor; [|exact HF].
      apply andb_prop in Hc. destruct Hc as [H1 H2].
      apply Nat.ltb_lt in H1. apply Nat.leb_le in H2. auto.
    + intros theta feed. rewrite H. simpl.
      destruct (acc theta feed) as [v l]. simpl.
      unfold tr_ret at 1. rewrite seq_loglik_eq. simpl.
      rewrite app_nil_r, <- app_assoc. reflexivity.
Qed.

Lemma loglik_loop_ok (ph : placeholder) (k : option nat) (elems : list nat) :
  Forall (fun b => b < ph_rows ph /\ 1 <= ph_dim ph) elems ->
  forall (acc : tensor scalar),
    exists loglikli,
      py_for elems (log_likelihood_body ph k) acc = inr loglikli.
Proof.
  induction 1 as [|b elems [H1 H2] _ IH]; intros acc; simpl.
  - eexists; reflexivity.
  - unfold log_likelihood_body at 1, slice_b.
    apply Nat.ltb_lt in H1. apply Nat.leb_le in H2.
    rewrite H1, H2. simpl. apply IH.
Qed.

Lemma loglik_loop_fail (ph : placeholder) (k : option nat) (elems : list nat) :
  Exists (fun b => ph_rows ph <= b \/ ph_dim ph = 0) elems ->
  forall (acc : tensor scalar),
    py_for elems (log_likelihood_body ph k) acc = inl ValueError.
Proof.
  intros HE acc.
  destruct (py_for elems _ acc) as [e|ll] eqn:H.
  - revert acc H. clear HE.
    induction elems as [|b elems IH]; intros acc H; simpl in H; [discriminate|].
    unfold log_likelihood_body at 1, slice_b in H.
    destruct ((b <? ph_rows ph) && (1 <=? ph_dim ph)); simpl in H.
    + eapply IH; eassumption.
    + inversion H. reflexivity.
  - apply loglik_loop_inv in H. destruct H as [HF _].
    apply Exists_exists in HE. destruct HE as [b [Hin Hb]].
    rewrite Forall_forall in HF. apply HF in Hin. lia.
Qed.

(** [log_likelihood] under a bound global [batch_size]. *)
Lemma log_likelihood_inv (G : globals) (ph : placeholder) (k : option nat)
      (loglikli : tensor scalar) :
  log_likelihood G ph k = inr loglikli ->
  exists g,
    g_batch_size G = Some g /\
    (g <= ph_rows ph /\ (g = 0 \/ 1 <= ph_dim ph)) /\
    forall theta feed,
      loglikli theta feed =
      (fold_left add (map (seq_sum theta k) (scanned g feed)) zero,
       flat_map (seq_calls theta k) (scanned g feed)).
Proof.
  unfold log_likelihood, lookup_batch_size.
  destruct (g_batch_size G) as [g|]; simpl; [|discriminate].
  intros H. exists g. split; [reflexivity|].
  apply loglik_loop_inv in H. destruct H as [HF H].
  rewrite range_seq in HF. rewrite Forall_forall in HF. split.
  - destruct g as [|g]; [lia|].
    assert (Hin : In g (seq 0 (S g))) by (apply in_seq; lia).
    apply HF in Hin. lia.
  - intros theta feed. rewrite H. simpl. unfold scanned.
    rewrite range_seq, map_map, flat_map_concat_map, flat_map_concat_map, map_map.
    reflexivity.
Qed.

Lemma log_likelihood_ok (G : globals) (ph : placeholder) (k : option nat) (g : nat) :
  g_batch_size G = Some g -> g <= ph_rows ph -> g = 0 \/ 1 <= ph_dim ph ->
  exists loglikli, log_likelihood G ph k = inr loglikli.
Proof.
  intros HG Hg Hd. unfold log_likelihood, lookup_batch_size. rewrite HG. simpl.
  apply loglik_loop_ok. rewrite range_seq. apply Forall_forall.
  intros b Hb. apply in_seq in Hb. lia.
Qed.


(** *** The log-likelihood of a batch *)

(** C1. When the graph is built for batches of [B] sequences (the bound name
    [batch_size] is the placeholder's first dimension), [log_likelihood]
    returns a tensor; on every batch of [B] sequences its value is the sum,
    over the sequences [b] of the batch, of the per-sequence sum of the terms
    [log_conditional_pdf(truncSeq[0:i], cutoff)], [i = 1 .. L_b], where
    [truncSeq] is the compacted sequence of the valid events of [b] and [L_b]
    its length; the density is called once for each of these terms. *)
Theorem log_likelihood_total (G : globals) (ph : placeholder) (k : option nat) :
  g_batch_size G = Some (ph_rows ph) ->
  1 <= ph_dim ph ->
  exists loglikli,
    log_likelihood G ph k = inr loglikli /\
    forall theta feed,
      length feed = ph_rows ph ->
      value (loglikli theta feed) =
      fold_left add
        (map (fun s =>
                fold_left add
                  (map (fun i => log_conditional_pdf theta (firstn i (valid_events s)) k)
                       (seq 1 (length (valid_events s))))
                  zero)
             feed)
        zero /\
      map call_points (calls (loglikli theta feed)) =
      flat_map (fun s => map (fun i => firstn i (valid_events s))
                             (seq 1 (length (valid_events s))))
               feed.
Proof.
  intros HG Hd.
  destruct (log_likelihood_ok G ph k HG) as [ll Hll]; [lia | right; exact Hd |].
  exists ll. split; [exact Hll|].
  intros theta feed Hlen.
  destruct (log_likelihood_inv G ph k Hll) as [g [HG' [_ Heq]]].
  rewrite HG in HG'. inversion HG'; subst g.
  rewrite Heq, <- Hlen, scanned_all. simpl. split; [reflexivity|].
  unfold seq_calls, term_call.
  rewrite !flat_map_concat_map, concat_map, !map_map.
  f_equal. apply map_ext. intros s. rewrite map_map. reflexivity.
Qed.

(** C2. An event is kept iff its time passes the test [> 0]; for every
    sequence the prefixes passed to the density are the first [i] valid
    events in their original order, for [i = 1 .. L], so their number is the
    count of the events with a positive time and no event whose time fails
    the test is in any of them; the calls of a whole batch are those of its
    sequences, so the same holds for every prefix passed for the batch. *)
Theorem masking_correct (G : globals) (ph : placeholder) (k : option nat)
        (loglikli : tensor scalar) (theta : vars) (feed : tensor3) :
  log_likelihood G ph k = inr loglikli ->
  (forall (s : sequence) (i : nat),
      i < length s ->
      (nth i (mask_t s) 0%Z <> 0%Z <-> gt0 (time (nth i s [])) = true)) /\
  (forall (s : sequence) (r : row),
      In r (boolean_mask s (mask_t s)) <-> In r s /\ gt0 (time r) = true) /\
  (forall (s : sequence) (init : scalar),
      map call_points (calls (seq_loglik k init s theta)) =
      map (fun i => firstn i (filter (fun r => gt0 (time r)) s))
          (seq 1 (length (filter (fun r => gt0 (time r)) s)))) /\
  (forall (s : sequence) (init : scalar),
      length (calls (seq_loglik k init s theta)) =
      length (filter (fun r => gt0 (time r)) s)) /\
  (exists g,
      g_batch_size G = Some g /\
      calls (loglikli theta feed) =
      flat_map (fun s => calls (seq_loglik k zero s theta)) (scanned g feed)) /\
  (forall (c : pdf_call) (r : row),
      In c (calls (loglikli theta feed)) ->
      gt0 (time r) = false ->
      ~ In r (call_points c)).
Proof.
  intros Hll.
  assert (Hkeep : forall (s : sequence) (r : row),
             In r (valid_events s) <-> In r s /\ gt0 (time r) = true).
  { intros s r. unfold valid_events. rewrite filter_In. reflexivity. }
  assert (Hcalls : forall s init,
             calls (seq_loglik k init s theta) = seq_calls theta k s).
  { intros s init. rewrite seq_loglik_eq. reflexivity. }
  destruct (log_likelihood_inv G ph k Hll) as [g [HG [_ Heq]]].
  repeat split.
  - intros Hm. unfold mask_t, times in Hm.
    rewrite map_map in Hm.
    rewrite nth_indep with (d' := cast_float32 (gt0 (time []))) in Hm
      by (rewrite length_map; exact H).
    rewrite (map_nth (fun r => cast_float32 (gt0 (time r)))) in Hm.
    destruct (gt0 (time (nth i s []))); [reflexivity | exfalso; apply Hm; reflexivity].
  - intros Hv. unfold mask_t, times.
    rewrite map_map.
    rewrite nth_indep with (d' := cast_float32 (gt0 (time [])))
      by (rewrite length_map; exact H).
    rewrite (map_nth (fun r => cast_float32 (gt0 (time r)))).
    rewrite Hv. simpl. discriminate.
  - rewrite boolean_mask_valid in H. apply Hkeep in H. apply H.
  - rewrite boolean_mask_valid in H. apply Hkeep in H. apply H.
  - intros [H1 H2]. rewrite boolean_mask_valid. apply Hkeep. auto.
  - intros s init. rewrite Hcalls. unfold seq_calls, term_call.
    rewrite map_map. reflexivity.
  - intros s init. rewrite Hcalls. unfold seq_calls.
    rewrite length_map, length_seq. reflexivity.
  - exists g. split; [exact HG|]. rewrite Heq. simpl.
    rewrite !flat_map_concat_map. f_equal. apply map_ext.
    intros s. rewrite Hcalls. reflexivity.
  - intros c r Hc Hr Hin. rewrite Heq in Hc. simpl in Hc.
    apply in_flat_map in Hc. destruct Hc as [s [_ Hc]].
    unfold seq_calls in Hc. apply in_map_iff in Hc.
    destruct Hc as [i [Hi _]]. subst c. simpl in Hin.
    apply in_firstn_in in Hin. apply Hkeep in Hin.
    destruct Hin as [_ Hin]. congruence.
Qed.

(** C3. For a sequence without a valid event the scan runs over the empty
    range: its loop ends at once with the initializer as accumulator and no
    output, the density is not called, evaluation returns (it cannot raise),
    and the per-sequence log-likelihood added to the total is exactly [0.]. *)
Theorem empty_sequence_contributes_zero (k : option nat) (init : scalar)
        (s : sequence) (theta : vars) :
  length (valid_events s) = 0 ->
  let trunc_seq := boolean_mask s (mask_t s) in
  range2 1 (length trunc_seq + 1) = [] /\
  scan_loop (fun (a : scalar) (i : nat) => pdf_op theta (firstn i trunc_seq) k)
            (range2 1 (length trunc_seq + 1)) init [] = ((init, []), []) /\
  scan_terms k init s theta = ([], []) /\
  seq_loglik k zero s theta = (zero, []) /\
  (forall (G : globals) (ph : placeholder) (loglikli : tensor scalar),
      log_likelihood G ph k = inr loglikli ->
      g_batch_size G = Some 1 ->
      loglikli theta [s] = (add zero zero, [])).
Proof.
  intros HL trunc_seq. subst trunc_seq.
  rewrite boolean_mask_valid, HL.
  repeat split.
  - rewrite scan_terms_eq, HL. reflexivity.
  - rewrite seq_loglik_eq. unfold seq_sum, seq_calls. rewrite HL. reflexivity.
  - intros G ph ll Hll HG.
    destruct (log_likelihood_inv G ph k Hll) as [g [HG' [_ Heq]]].
    rewrite HG in HG'. inversion HG'; subst g.
    rewrite Heq. unfold scanned. simpl.
    unfold seq_sum, seq_calls. rewrite HL. reflexivity.
Qed.

(** C10. The step of the scan does not read its accumulator: for every
    sequence and every initializer, the summed output of the scan is the
    direct sum of [log_conditional_pdf(truncSeq[0:i], keep_latest_k)] over
    [i = 1 .. L], the same as with the initializer [0.], and scan followed by
    [reduce_sum] equals a plain fold that accumulates the sum (value and
    calls of the density alike). *)
Theorem scan_equals_plain_fold (k : option nat) (init : scalar) (s : sequence)
        (theta : vars) :
  value (seq_loglik k init s theta) =
  fold_left add
    (map (fun i => log_conditional_pdf theta (firstn i (valid_events s)) k)
         (seq 1 (length (valid_events s))))
    zero /\
  seq_loglik k init s theta = seq_loglik k zero s theta /\
  seq_loglik k init s theta = plain_fold k s theta.
Proof.
  rewrite !seq_loglik_eq. repeat split.
  unfold plain_fold. rewrite fold_terms_eq, range2_1. reflexivity.
Qed.


(** *** The constructor *)

Lemma loss_loop_graph (ph : placeholder) (k : option nat) (elems : list nat) :
  forall v : loss_value,
    py_for elems (log_likelihood_body ph k) (as_tensor v) =
    py_bind (py_for elems
                    (fun (loglikli : loss_value) (b : nat) =>
                       py_bind (log_likelihood_body ph k (as_tensor loglikli) b)
                               (fun t => py_ret (TensorValue t)))
                    v)
            (fun v' => py_ret (as_tensor v')).
Proof.
  induction elems as [|b elems IH]; intros v; simpl; [reflexivity|].
  destruct (log_likelihood_body ph k (as_tensor v) b) as [e|t]; simpl;
    [reflexivity|].
  apply (IH (TensorValue t)).
Qed.

(** The graph of the value that [log_likelihood] returns. *)
Lemma log_likelihood_value_graph (G : globals) (ph : placeholder) (k : option nat) :
  log_likelihood G ph k =
  py_bind (log_likelihood_value G ph k) (fun v => py_ret (as_tensor v)).
Proof.
  unfold log_likelihood, log_likelihood_value.
  destruct (lookup_batch_size G) as [e|g]; simpl; [reflexivity|].
  apply (loss_loop_graph ph k (range g) (PyFloat zero)).
Qed.

Lemma loss_loop_tensor (ph : placeholder) (k : option nat) (elems : list nat) :
  forall (t : tensor scalar) (v : loss_value),
    py_for elems
           (fun (loglikli : loss_value) (b : nat) =>
              py_bind (log_likelihood_body ph k (as_tensor loglikli) b)
                      (fun t => py_ret (TensorValue t)))
           (TensorValue t) = inr v ->
    exists t', v = TensorValue t'.
Proof.
  induction elems as [|b elems IH]; intros t v H; cbn [py_for] in H.
  - inversion H. exists t. reflexivity.
  - destruct (log_likelihood_body ph k (as_tensor (TensorValue t)) b) as [e|t1];
      cbn [py_bind py_ret] in H; [discriminate|].
    apply (IH t1 v H).
Qed.

(** The value is the float [0.] exactly when the loop makes no pass. *)
Lemma log_likelihood_value_kind (G : globals) (ph : placeholder) (k : option nat)
      (v : loss_value) (g : nat) :
  log_likelihood_value G ph k = inr v ->
  g_batch_size G = Some g ->
  match g with
  | 0 => v = PyFloat zero
  | S _ => exists t, v = TensorValue t
  end.
Proof.
  unfold log_likelihood_value, lookup_batch_size. intros H HG.
  rewrite HG in H. cbn [py_bind py_ret] in H. rewrite range_seq in H.
  destruct g as [|g]; cbn [seq py_for] in H.
  - inversion H. reflexivity.
  - destruct (log_likelihood_body ph k (as_tensor (PyFloat zero)) 0) as [e|t1];
      cbn [py_bind py_ret] in H; [discriminate|].
    apply (loss_loop_tensor _ _ _ _ H).
Qed.

Lemma init_inv (G : globals) (B0 d : nat) (k : option nat) (lr : scalar)
      (self : MLE_Hawkes_Generator) :
  MLE_Hawkes_Generator_init G B0 d k lr = inr self ->
  exists loglikli,
    log_likelihood G {| ph_rows := B0; ph_dim := d |} k = inr loglikli /\
    self = {| batch_size := B0;
              input_seqs := {| ph_rows := B0; ph_dim := d |};
              cost := fun theta feed =>
                        tr_map (fun v => div_int (neg1_mul v) B0) (loglikli theta feed);
              optimizer :=
                {| op_lr := lr;
                   op_loss := fun theta feed =>
                                tr_map (fun v => div_int (neg1_mul v) B0)
                                       (loglikli theta feed) |} |}.
Proof.
  unfold MLE_Hawkes_Generator_init.
  destruct (log_likelihood_value G _ k) as [e|[x|ll]] eqn:Hv; simpl;
    [discriminate | destruct (B0 =? 0); discriminate |].
  intros H. inversion H. exists ll. split; [|reflexivity].
  rewrite log_likelihood_value_graph, Hv. reflexivity.
Qed.

Lemma init_ok (G : globals) (B0 d : nat) (k : option nat) (lr : scalar) (g : nat) :
  g_batch_size G = Some g -> 0 < g -> g <= B0 -> 1 <= d ->
  exists loglikli,
    log_likelihood G {| ph_rows := B0; ph_dim := d |} k = inr loglikli /\
    MLE_Hawkes_Generator_init G B0 d k lr =
    inr {| batch_size := B0;
           input_seqs := {| ph_rows := B0; ph_dim := d |};
           cost := fun theta feed =>
                     tr_map (fun v => div_int (neg1_mul v) B0) (loglikli theta feed);
           optimizer :=
             {| op_lr := lr;
                op_loss := fun theta feed =>
                             tr_map (fun v => div_int (neg1_mul v) B0)
                                    (loglikli theta feed) |} |}.
Proof.
  intros HG Hpos Hg Hd.
  destruct (log_likelihood_ok G {| ph_rows := B0; ph_dim := d |} k HG Hg
                              (or_intror Hd)) as [ll Hll].
  exists ll. split; [exact Hll|].
  rewrite log_likelihood_value_graph in Hll.
  unfold MLE_Hawkes_Generator_init.
  destruct (log_likelihood_value G {| ph_rows := B0; ph_dim := d |} k)
    as [e|v] eqn:Hv; simpl in Hll; [discriminate|].
  pose proof (log_likelihood_value_kind _ _ _ Hv HG) as Hk.
  destruct g as [|g]; [lia|]. destruct Hk as [t Ht]. subst v.
  simpl in Hll. inversion Hll; subst t. reflexivity.
Qed.

Lemma tr_map_value {A C : Type} (f : A -> C) (c : traced A) :
  value (tr_map f c) = f (value c) /\ calls (tr_map f c) = calls c.
Proof.
  destruct c as [a l]. unfold tr_map, tr_bind, tr_ret. simpl.
  rewrite app_nil_r. split; reflexivity.
Qed.

(** C4. In an object that the constructor has built with batch size [B], the
    cost tensor is the total log-likelihood multiplied by [-1] and divided by
    [B], on every batch and for every value of the variables (and it calls
    the density exactly as the log-likelihood does); it is the loss of the
    optimizer. *)
Theorem cost_is_negated_average (G : globals) (B0 d : nat) (k : option nat)
        (lr : scalar) (self : MLE_Hawkes_Generator) :
  MLE_Hawkes_Generator_init G B0 d k lr = inr self ->
  batch_size self = B0 /\
  op_loss (optimizer self) = cost self /\
  exists loglikli,
    log_likelihood G (input_seqs self) k = inr loglikli /\
    forall theta feed,
      value (cost self theta feed) =
      div_int (neg1_mul (value (loglikli theta feed))) B0 /\
      calls (cost self theta feed) = calls (loglikli theta feed).
Proof.
  intros H. apply init_inv in H. destruct H as [ll [Hll Hself]].
  subst self. simpl. repeat split.
  exists ll. split; [exact Hll|].
  intros theta feed.
  apply (tr_map_value (fun v => div_int (neg1_mul v) B0) (ll theta feed)).
Qed.


(** *** Indexing *)

Lemma skipn_nth_error {A : Type} (a : list A) (i : nat) (x : A) :
  nth_error a i = Some x -> skipn i a = x :: skipn (S i) a.
Proof.
  revert a. induction i as [|i IH]; intros [|y a] H; simpl in H; try discriminate.
  - inversion H. reflexivity.
  - apply IH in H. exact H.
Qed.

Lemma take_seq {A : Type} (a : list A) (len start : nat) :
  start + len <= length a ->
  take a (seq start len) = inr (firstn len (skipn start a)).
Proof.
  revert start. induction len as [|len IH]; intros start H; simpl.
  - reflexivity.
  - destruct (nth_error a start) as [x|] eqn:Hx.
    + rewrite IH by lia. simpl.
      rewrite (skipn_nth_error a start Hx). reflexivity.
    + apply nth_error_None in Hx. lia.
Qed.

Lemma take_gather {A : Type} (a : list A) (d : A) (ids : list nat) :
  Forall (fun i => i < length a) ids ->
  take a ids = inr (map (fun i => nth i a d) ids).
Proof.
  induction 1 as [|i ids Hi _ IH]; simpl; [reflexivity|].
  destruct (nth_error a i) as [x|] eqn:Hx.
  - rewrite IH. simpl. rewrite (nth_error_nth a i d Hx). reflexivity.
  - apply nth_error_None in Hx. lia.
Qed.

Lemma arange2_block (size b : nat) :
  arange2 (size * b) (size * (b + 1)) = seq (size * b) size.
Proof. unfold arange2, range2. f_equal. nia. Qed.

Lemma gather_fits (ph : placeholder) (expert_seqs : tensor3) (ids : list nat) :
  rows_dim (ph_dim ph) expert_seqs = true ->
  Forall (fun i => i < length expert_seqs) ids ->
  length ids = ph_rows ph ->
  fits ph (gather expert_seqs ids) = true.
Proof.
  intros Hd Hi Hl. unfold fits, gather.
  rewrite length_map, Hl, Nat.eqb_refl. simpl.
  apply forallb_forall. intros s Hs.
  apply in_map_iff in Hs. destruct Hs as [i [Hs Hin]]. subst s.
  unfold rows_dim in Hd. rewrite forallb_forall in Hd.
  apply Hd. apply nth_In.
  rewrite Forall_forall in Hi. apply Hi. exact Hin.
Qed.

(** *** Runs of the session *)

Lemma run_optimizer_ok (self : MLE_Hawkes_Generator) (feed : tensor3) (w : world)
      (theta : vars) :
  fits (input_seqs self) feed = true ->
  w_vars w = Some theta ->
  run_optimizer self feed w =
  (inr tt,
   {| w_vars := Some (sgd_step self theta feed);
      w_rng := w_rng w;
      w_log := w_log w ++ [EvalCost theta feed;
                           ApplyGradient theta (sgd_step self theta feed)] |}).
Proof.
  intros Hf Hv.
  unfold run_optimizer, check_feed, bind, lift, read_vars, emit, write_vars.
  rewrite Hf. simpl. rewrite Hv. simpl.
  rewrite <- app_assoc. reflexivity.
Qed.

Lemma run_cost_ok (self : MLE_Hawkes_Generator) (feed : tensor3) (w : world)
      (theta : vars) :
  fits (input_seqs self) feed = true ->
  w_vars w = Some theta ->
  run_cost self feed w =
  (inr (value (cost self theta feed)), log_more w [EvalCost theta feed]).
Proof.
  intros Hf Hv.
  unfold run_cost, check_feed, bind, lift, read_vars, emit, ret.
  rewrite Hf. simpl. rewrite Hv. reflexivity.
Qed.

Lemma train_batch_ok (self : MLE_Hawkes_Generator) (expert_seqs : tensor3)
      (size : nat) (shuffled_ids : list nat) (avg : list scalar) (b : nat)
      (w : world) (theta : vars) :
  size * (b + 1) <= length shuffled_ids ->
  Forall (fun i => i < length expert_seqs) shuffled_ids ->
  ph_rows (input_seqs self) = size ->
  rows_dim (ph_dim (input_seqs self)) expert_seqs = true ->
  w_vars w = Some theta ->
  let feed := gather expert_seqs (firstn size (skipn (size * b) shuffled_ids)) in
  let theta' := sgd_step self theta feed in
  train_batch self expert_seqs size shuffled_ids avg b w =
  (inr (avg ++ [value (cost self theta' feed)]),
   {| w_vars := Some theta';
      w_rng := w_rng w;
      w_log := w_log w ++ batch_log theta theta' feed |}).
Proof.
  intros Hlen Hids Hrows Hdim Hv feed theta'.
  assert (Hblock : Forall (fun i => i < length expert_seqs)
                          (firstn size (skipn (size * b) shuffled_ids))).
  { apply Forall_forall. intros i Hi.
    apply in_firstn_in in Hi.
    assert (In i shuffled_ids).
    { rewrite <- (firstn_skipn (size * b) shuffled_ids).
      apply in_or_app. right. exact Hi. }
    rewrite Forall_forall in Hids. auto. }
  assert (Hfit : fits (input_seqs self) feed = true).
  { apply gather_fits; try assumption.
    rewrite length_firstn, length_skipn. nia. }
  unfold train_batch.
  rewrite arange2_block, take_seq by lia.
  unfold bind at 1. unfold lift at 1.
  rewrite (take_gather expert_seqs [] Hblock).
  unfold bind at 1. unfold lift at 1.
  fold (gather expert_seqs (firstn size (skipn (size * b) shuffled_ids))).
  fold feed.
  unfold bind at 1. rewrite (run_optimizer_ok self feed w Hfit Hv).
  fold theta'.
  unfold bind at 1.
  rewrite (run_cost_ok self feed _ (theta := theta') Hfit) by reflexivity.
  unfold ret, log_more, batch_log. simpl.
  rewrite <- app_assoc. reflexivity.
Qed.


Lemma batches_ok (self : MLE_Hawkes_Generator) (expert_seqs : tensor3)
      (size : nat) (shuffled_ids : list nat) :
  Forall (fun i => i < length expert_seqs) shuffled_ids ->
  ph_rows (input_seqs self) = size ->
  rows_dim (ph_dim (input_seqs self)) expert_seqs = true ->
  forall (bl : list nat) (avg : list scalar) (w : world) (theta : vars),
    Forall (fun b => size * (b + 1) <= length shuffled_ids) bl ->
    w_vars w = Some theta ->
    M_for bl (train_batch self expert_seqs size shuffled_ids) avg w =
    let '(theta_end, costs, log) :=
      run_batches self
        (map (fun b => gather expert_seqs (firstn size (skipn (size * b) shuffled_ids))) bl)
        theta in
    (inr (avg ++ costs),
     {| w_vars := Some theta_end; w_rng := w_rng w; w_log := w_log w ++ log |}).
Proof.
  intros Hids Hrows Hdim.
  induction bl as [|b bl IH]; intros avg w theta Hbl Hv; simpl.
  - unfold ret. rewrite !app_nil_r. destruct w; simpl in *. subst. reflexivity.
  - inversion Hbl as [|? ? Hb Hbl']; subst.
    unfold bind.
    rewrite train_batch_ok with (theta := theta); try assumption; try reflexivity.
    erewrite IH; [|exact Hbl'|reflexivity].
    simpl.
    destruct (run_batches self _ _) as [[theta_end costs] log].
    rewrite <- !app_assoc. reflexivity.
Qed.

Lemma blocks_map_gather (expert_seqs : tensor3) (size n : nat) (ids : list nat) :
  map (fun b => gather expert_seqs (firstn size (skipn (size * b) ids))) (seq 0 n) =
  map (gather expert_seqs) (blocks size n ids).
Proof. unfold blocks. rewrite map_map. reflexivity. Qed.

Lemma permutation_bound (n : nat) (ids : list nat) :
  Permutation ids (seq 0 n) ->
  length ids = n /\ Forall (fun i => i < n) ids.
Proof.
  intros HP. split.
  - rewrite (Permutation_length HP). apply length_seq.
  - apply Forall_forall. intros i Hi.
    apply (Permutation_in _ HP) in Hi. apply in_seq in Hi. lia.
Qed.

Lemma train_epoch_ok (self : MLE_Hawkes_Generator) (expert_seqs : tensor3)
      (size n_batches epoch : nat) (w : world) (theta : vars) :
  Permutation (fst (np_random_shuffle (w_rng w) (arange (length expert_seqs))))
              (seq 0 (length expert_seqs)) ->
  size * n_batches <= length expert_seqs ->
  ph_rows (input_seqs self) = size ->
  rows_dim (ph_dim (input_seqs self)) expert_seqs = true ->
  w_vars w = Some theta ->
  train_epoch self expert_seqs size (length expert_seqs) n_batches epoch w =
  let (shuffled_ids, r') := np_random_shuffle (w_rng w) (arange (length expert_seqs)) in
  let '(theta_end, costs, log) :=
    run_batches self (map (gather expert_seqs) (blocks size n_batches shuffled_ids))
                theta in
  (inr tt,
   {| w_vars := Some theta_end; w_rng := r';
      w_log := w_log w ++ log ++ epoch_lines epoch n_batches size costs |}).
Proof.
  intros HP Hn Hrows Hdim Hv.
  unfold train_epoch. unfold bind at 1. unfold shuffle.
  destruct (np_random_shuffle (w_rng w) (arange (length expert_seqs)))
    as [shuffled_ids r'] eqn:Hs.
  simpl in HP. apply permutation_bound in HP. destruct HP as [Hlen Hids].
  unfold bind at 1.
  rewrite range_seq.
  rewrite (batches_ok self expert_seqs (shuffled_ids := shuffled_ids)
                      Hids Hrows Hdim) with (theta := theta).
  - rewrite blocks_map_gather.
    destruct (run_batches self _ theta) as [[theta_end costs] log].
    unfold bind, emit, epoch_lines. simpl.
    rewrite <- !app_assoc. reflexivity.
  - apply Forall_forall. intros b Hb. apply in_seq in Hb. nia.
  - exact Hv.
Qed.

Lemma train_epoch_empty (self : MLE_Hawkes_Generator) (expert_seqs : tensor3)
      (size n_data epoch : nat) (w : world) :
  train_epoch self expert_seqs size n_data 0 epoch w =
  (inr tt,
   {| w_vars := w_vars w;
      w_rng := snd (np_random_shuffle (w_rng w) (arange n_data));
      w_log := w_log w ++ epoch_lines epoch 0 size [] |}).
Proof.
  unfold train_epoch, bind, shuffle.
  destruct (np_random_shuffle (w_rng w) (arange n_data)) as [ids r'].
  simpl. unfold emit, ret, epoch_lines. simpl.
  rewrite <- app_assoc. reflexivity.
Qed.

Lemma epochs_empty (self : MLE_Hawkes_Generator) (expert_seqs : tensor3)
      (size n_data : nat) (epochs : list nat) :
  forall (w : world),
    M_for epochs
          (fun (_ : unit) epoch => train_epoch self expert_seqs size n_data 0 epoch)
          tt w =
    (inr tt,
     {| w_vars := w_vars w;
        w_rng := rng_after n_data epochs (w_rng w);
        w_log := w_log w ++ flat_map (fun epoch => epoch_lines epoch 0 size []) epochs |}).
Proof.
  induction epochs as [|e epochs IH]; intros w; simpl.
  - unfold ret. rewrite app_nil_r. destruct w; reflexivity.
  - unfold bind. rewrite train_epoch_empty. rewrite IH. simpl.
    rewrite <- !app_assoc. reflexivity.
Qed.

Lemma epochs_ok (self : MLE_Hawkes_Generator) (expert_seqs : tensor3)
      (size n_batches : nat) :
  (forall r l, Permutation (fst (np_random_shuffle r l)) l) ->
  size * n_batches <= length expert_seqs ->
  ph_rows (input_seqs self) = size ->
  rows_dim (ph_dim (input_seqs self)) expert_seqs = true ->
  forall (epochs : list nat) (w : world) (theta : vars),
    w_vars w = Some theta ->
    M_for epochs
          (fun (_ : unit) epoch =>
             train_epoch self expert_seqs size (length expert_seqs) n_batches epoch)
          tt w =
    let '(theta_end, r_end, log) :=
      run_epochs self expert_seqs size n_batches epochs theta (w_rng w) in
    (inr tt,
     {| w_vars := Some theta_end; w_rng := r_end; w_log := w_log w ++ log |}).
Proof.
  intros HP Hn Hrows Hdim.
  induction epochs as [|e epochs IH]; intros w theta Hv; simpl.
  - unfold ret. rewrite app_nil_r. destruct w; simpl in *. subst. reflexivity.
  - unfold bind.
    rewrite (train_epoch_ok self expert_seqs n_batches e w) with (theta := theta);
      try assumption.
    + destruct (np_random_shuffle (w_rng w) (arange (length expert_seqs)))
        as [shuffled_ids r'].
      destruct (run_batches self _ theta) as [[theta' costs] log].
      rewrite IH with (theta := theta') by reflexivity. simpl.
      destruct (run_epochs self expert_seqs size n_batches epochs theta' r')
        as [[theta_end r_end] log_end].
      rewrite <- !app_assoc. reflexivity.
    + unfold arange. rewrite range_seq. apply HP.
Qed.


(** *** Blocks of a list of indices *)

Lemma firstn_plus {A : Type} (a b : nat) (l : list A) :
  firstn (a + b) l = firstn a l ++ firstn b (skipn a l).
Proof.
  revert l. induction a as [|a IH]; intros l; simpl; [reflexivity|].
  destruct l as [|x l]; simpl.
  - rewrite firstn_nil. reflexivity.
  - rewrite IH. reflexivity.
Qed.

Lemma nodup_app_disjoint {A : Type} (l1 l2 : list A) (a : A) :
  NoDup (l1 ++ l2) -> In a l2 -> ~ In a l1.
Proof.
  induction l1 as [|x l1 IH]; simpl; intros HN H2 H1; [exact H1|].
  inversion HN as [|? ? Hx HN']; subst.
  destruct H1 as [H1|H1].
  - subst x. apply Hx. apply in_or_app. right. exact H2.
  - exact (IH HN' H2 H1).
Qed.

Lemma blocks_length (size n : nat) (ids : list nat) :
  length (blocks size n ids) = n.
Proof. unfold blocks. rewrite length_map, length_seq. reflexivity. Qed.

Lemma blocks_S (size n : nat) (ids : list nat) :
  blocks size (S n) ids = blocks size n ids ++ [firstn size (skipn (size * n) ids)].
Proof. unfold blocks. rewrite seq_S, map_app. reflexivity. Qed.

Lemma blocks_each (size n : nat) (ids : list nat) :
  size * n <= length ids ->
  Forall (fun block => length block = size) (blocks size n ids).
Proof.
  intros H. apply Forall_forall. intros block Hb.
  unfold blocks in Hb. apply in_map_iff in Hb.
  destruct Hb as [b [Hb Hin]]. subst block. apply in_seq in Hin.
  rewrite length_firstn, length_skipn. nia.
Qed.

Lemma blocks_concat (size n : nat) (ids : list nat) :
  concat (blocks size n ids) = firstn (size * n) ids.
Proof.
  induction n as [|n IH].
  - rewrite Nat.mul_0_r. reflexivity.
  - rewrite blocks_S, concat_app, IH. simpl. rewrite app_nil_r.
    replace (size * S n) with (size * n + size) by lia.
    rewrite firstn_plus. reflexivity.
Qed.

Lemma blocks_nth (size n b : nat) (ids : list nat) :
  b < n -> nth b (blocks size n ids) [] = firstn size (skipn (size * b) ids).
Proof.
  intros Hb. unfold blocks.
  rewrite nth_indep with (d' := (fun b => firstn size (skipn (size * b) ids)) 0)
    by (rewrite length_map, length_seq; exact Hb).
  rewrite (map_nth (fun b => firstn size (skipn (size * b) ids))).
  rewrite seq_nth by exact Hb. reflexivity.
Qed.

(** *** The whole of [train] *)

Lemma int_div_pos (n size : nat) : 0 < size -> int_div n size = inr (n / size).
Proof. destruct size; [lia | reflexivity]. Qed.

Lemma train_start (pretrained : bool) (w : world) :
  (if negb pretrained
   then bind (emit (Printed ParametersInitialized)) (fun _ => run_init)
   else ret tt) w =
  (inr tt,
   {| w_vars := start_vars pretrained w; w_rng := w_rng w;
      w_log := w_log w ++ start_log pretrained |}).
Proof.
  destruct pretrained; simpl.
  - unfold ret. rewrite app_nil_r. destruct w; reflexivity.
  - unfold bind, emit, run_init, bind, write_vars, emit. simpl.
    rewrite <- app_assoc. reflexivity.
Qed.

Lemma train_split (G : globals) (self : MLE_Hawkes_Generator) (epoches : nat)
      (expert_seqs : tensor3) (pretrained : bool) (w : world) :
  train G self epoches expert_seqs pretrained w =
  train_epochs G self epoches expert_seqs
               {| w_vars := start_vars pretrained w; w_rng := w_rng w;
                  w_log := w_log w ++ start_log pretrained |}.
Proof. unfold train. unfold bind at 1. rewrite train_start. reflexivity. Qed.

Lemma train_ok (G : globals) (self : MLE_Hawkes_Generator) (epoches : nat)
      (expert_seqs : tensor3) (pretrained : bool) (w : world) (size : nat)
      (theta : vars) :
  (forall r l, Permutation (fst (np_random_shuffle r l)) l) ->
  g_batch_size G = Some size ->
  0 < size ->
  ph_rows (input_seqs self) = size ->
  rows_dim (ph_dim (input_seqs self)) expert_seqs = true ->
  start_vars pretrained w = Some theta ->
  train G self epoches expert_seqs pretrained w =
  let '(theta_end, r_end, log) :=
    run_epochs self expert_seqs size (length expert_seqs / size)
               (seq 0 epoches) theta (w_rng w) in
  (inr tt,
   {| w_vars := Some theta_end; w_rng := r_end;
      w_log := w_log w ++ start_log pretrained ++ log ++ [final_line theta_end] |}).
Proof.
  intros HP HG Hsize Hrows Hdim Hv.
  rewrite train_split. unfold train_epochs.
  unfold bind at 1. unfold lift at 1, lookup_batch_size. rewrite HG. simpl.
  unfold bind at 1. unfold lift at 1. rewrite (int_div_pos _ Hsize).
  unfold bind at 1. rewrite range_seq.
  rewrite epochs_ok with (theta := theta); try assumption.
  - simpl.
    destruct (run_epochs self expert_seqs size _ _ theta (w_rng w))
      as [[theta_end r_end] log].
    unfold bind, run_vars, read_vars, emit, final_line. simpl.
    rewrite <- !app_assoc. reflexivity.
  - apply Nat.Div0.mul_div_le.
Qed.

(** C5. With a bound [batch_size > 0] that is the placeholder's batch
    dimension, data whose rows fit it, initialised variables and a shuffle
    that returns a permutation of its argument: [n_batches] is
    [floor(n_data / batch_size)]; [train] runs as a sequence of epochs, each
    of which shuffles anew (the generator's state is threaded from epoch to
    epoch) and runs the optimizer on the [n_batches] blocks of the shuffled
    indices; and whatever the state of the generator, the shuffled indices
    are a permutation of [0 .. n_data-1], the batch [b] is read at the
    indices [batch_size*b .. batch_size*(b+1)-1] of it, every block has
    exactly [batch_size] indices, the blocks together are the first
    [n_batches*batch_size] shuffled indices, without repeats, and no index
    of the remainder is in any block. *)
Theorem epoch_batches_partition (G : globals) (self : MLE_Hawkes_Generator)
        (epoches : nat) (expert_seqs : tensor3) (pretrained : bool) (w : world)
        (size : nat) (theta : vars) :
  (forall r l, Permutation (fst (np_random_shuffle r l)) l) ->
  g_batch_size G = Some size ->
  0 < size ->
  ph_rows (input_seqs self) = size ->
  rows_dim (ph_dim (input_seqs self)) expert_seqs = true ->
  start_vars pretrained w = Some theta ->
  let n_data := length expert_seqs in
  let n_batches := n_data / size in
  int_div n_data size = inr n_batches /\
  n_batches * size <= n_data < (n_batches + 1) * size /\
  train G self epoches expert_seqs pretrained w =
  (let '(theta_end, r_end, log) :=
     run_epochs self expert_seqs size n_batches (seq 0 epoches) theta (w_rng w) in
   (inr tt,
    {| w_vars := Some theta_end; w_rng := r_end;
       w_log := w_log w ++ start_log pretrained ++ log ++ [final_line theta_end] |})) /\
  forall (r : rng),
    let shuffled_ids := fst (np_random_shuffle r (arange n_data)) in
    let batches := blocks size n_batches shuffled_ids in
    Permutation shuffled_ids (seq 0 n_data) /\
    length batches = n_batches /\
    (forall b, b < n_batches ->
               take shuffled_ids (arange2 (size * b) (size * (b + 1))) =
               inr (nth b batches [])) /\
    Forall (fun block => length block = size) batches /\
    concat batches = firstn (n_batches * size) shuffled_ids /\
    NoDup (concat batches) /\
    (forall i, In i (skipn (n_batches * size) shuffled_ids) ->
               ~ In i (concat batches)).
Proof.
  intros HP HG Hsize Hrows Hdim Hv n_data n_batches.
  assert (Hle : size * n_batches <= n_data) by apply Nat.Div0.mul_div_le.
  assert (Hlt : n_data < size * (n_batches + 1)).
  { replace (size * (n_batches + 1)) with (size * S (n_data / size)) by (subst n_batches; lia).
    apply Nat.lt_le_trans with (m := size * S (n_data / size)); [|lia].
    apply Nat.mul_succ_div_gt. lia. }
  split; [apply int_div_pos; exact Hsize|].
  split; [lia|].
  split; [apply train_ok; assumption|].
  intros r shuffled_ids batches.
  assert (HPs : Permutation shuffled_ids (seq 0 n_data)).
  { subst shuffled_ids. unfold arange. rewrite range_seq. apply HP. }
  destruct (permutation_bound _ HPs) as [Hlen _].
  assert (HN : NoDup shuffled_ids).
  { apply Permutation_NoDup with (l := seq 0 n_data);
      [apply Permutation_sym; exact HPs | apply seq_NoDup]. }
  rewrite <- (firstn_skipn (n_batches * size) shuffled_ids) in HN.
  subst batches.
  rewrite blocks_concat, (Nat.mul_comm size n_batches).
  repeat split.
  - exact HPs.
  - apply blocks_length.
  - intros b Hb. rewrite arange2_block, take_seq by nia.
    rewrite blocks_nth by exact Hb. reflexivity.
  - apply blocks_each. lia.
  - apply NoDup_app_remove_r in HN. exact HN.
  - intros i Hi. apply (nodup_app_disjoint _ _ i HN Hi).
Qed.

(** C6. When the data has fewer sequences than the bound [batch_size],
    [n_batches] is 0; [train] logs, for every epoch, the epoch line with 0
    batches and a training cost that is the mean of the empty list, the
    division of [0.] by the integer 0; the session evaluates no cost and the
    optimizer assigns nothing; and the epochs raise no exception ([train]
    returns normally when the variables are initialised, and otherwise
    raises only at the final read of the variables, after all epochs). *)
Theorem insufficient_data_no_steps (G : globals) (self : MLE_Hawkes_Generator)
        (epoches : nat) (expert_seqs : tensor3) (pretrained : bool) (w : world)
        (size : nat) :
  g_batch_size G = Some size ->
  length expert_seqs < size ->
  let epochs_log :=
    flat_map (fun epoch => [Printed (EpochLine epoch 0 size);
                            Printed (TrainingCost (div_int zero 0))])
             (seq 0 epoches) in
  let r_end := rng_after (length expert_seqs) (seq 0 epoches) (w_rng w) in
  int_div (length expert_seqs) size = inr 0 /\
  np_mean [] = div_int zero 0 /\
  (forall a, In a (start_log pretrained ++ epochs_log) ->
             is_eval a = false /\ is_update a = false) /\
  train G self epoches expert_seqs pretrained w =
  match start_vars pretrained w with
  | Some theta =>
      (inr tt,
       {| w_vars := Some theta; w_rng := r_end;
          w_log := w_log w ++ start_log pretrained ++ epochs_log ++ [final_line theta] |})
  | None =>
      (inl FailedPreconditionError,
       {| w_vars := None; w_rng := r_end;
          w_log := w_log w ++ start_log pretrained ++ epochs_log |})
  end.
Proof.
  intros HG Hlt epochs_log r_end.
  assert (Hdiv : int_div (length expert_seqs) size = inr 0).
  { rewrite int_div_pos by lia. rewrite Nat.div_small by exact Hlt. reflexivity. }
  split; [exact Hdiv|].
  split; [reflexivity|].
  split.
  - intros a Ha. apply in_app_or in Ha. destruct Ha as [Ha|Ha].
    + destruct pretrained; simpl in Ha; [contradiction|].
      destruct Ha as [Ha|[Ha|[]]]; subst a; split; reflexivity.
    + subst epochs_log. apply in_flat_map in Ha.
      destruct Ha as [e [_ Ha]].
      destruct Ha as [Ha|[Ha|[]]]; subst a; split; reflexivity.
  - rewrite train_split. unfold train_epochs.
    unfold bind at 1. unfold lift at 1, lookup_batch_size. rewrite HG. simpl.
    unfold bind at 1. unfold lift at 1. rewrite Hdiv.
    unfold bind at 1. rewrite range_seq, epochs_empty. simpl.
    unfold bind, run_vars, read_vars, emit, final_line. simpl.
    fold epochs_log. fold r_end.
    destruct (start_vars pretrained w) as [theta|]; simpl;
      rewrite <- !app_assoc; reflexivity.
Qed.


(** *** One batch step *)

(** C7, as the code has it. In a batch step that raises nothing, the cost is
    evaluated twice on the same batch: by the optimizer under the variables
    before its update, since the gradient is taken there, and then explicitly
    under the variables after the update; the cost appended to the epoch's
    list is the second one, under the updated variables, which are the
    session's variables after the step. *)
Theorem recorded_cost_after_update (self : MLE_Hawkes_Generator)
        (expert_seqs : tensor3) (size : nat) (shuffled_ids : list nat)
        (avg : list scalar) (b : nat) (w : world) (theta : vars) :
  size * (b + 1) <= length shuffled_ids ->
  Forall (fun i => i < length expert_seqs) shuffled_ids ->
  ph_rows (input_seqs self) = size ->
  rows_dim (ph_dim (input_seqs self)) expert_seqs = true ->
  w_vars w = Some theta ->
  let feed := gather expert_seqs (firstn size (skipn (size * b) shuffled_ids)) in
  let theta' := sgd_step self theta feed in
  exists w',
    train_batch self expert_seqs size shuffled_ids avg b w =
    (inr (avg ++ [value (cost self theta' feed)]), w') /\
    w_vars w' = Some theta' /\
    w_log w' = w_log w ++ [EvalCost theta feed;
                           ApplyGradient theta theta';
                           EvalCost theta' feed] /\
    filter is_eval (skipn (length (w_log w)) (w_log w')) =
    [EvalCost theta feed; EvalCost theta' feed].
Proof.
  intros Hlen Hids Hrows Hdim Hv feed theta'.
  eexists. split.
  - apply train_batch_ok with (theta := theta); assumption.
  - simpl. fold feed. fold theta'. repeat split.
    rewrite skipn_app, skipn_all, Nat.sub_diag. reflexivity.
Qed.

(** *** Initialisation and updates of the variables *)

Lemma replay_app (l1 l2 : list action) (v : option vars) :
  replay (l1 ++ l2) v = replay l2 (replay l1 v).
Proof.
  revert v. induction l1 as [|a l1 IH]; intros v; simpl; [reflexivity|].
  destruct a; apply IH.
Qed.

Lemma tracked_ret {A : Type} (a : A) : tracked (ret a).
Proof. intros w. exists []. simpl. rewrite app_nil_r. auto. Qed.

Lemma tracked_lift {A : Type} (c : py A) : tracked (lift c).
Proof. intros w. exists []. simpl. rewrite app_nil_r. auto. Qed.

Lemma tracked_bind {A C : Type} (c : M A) (k : A -> M C) :
  tracked c -> (forall a, tracked (k a)) -> tracked (bind c k).
Proof.
  intros Hc Hk w. destruct (Hc w) as [l1 [H1 [H2 H3]]].
  unfold bind. destruct (c w) as [[e|a] w1]; simpl in *.
  - exists l1. auto.
  - destruct (Hk a w1) as [l2 [K1 [K2 K3]]].
    exists (l1 ++ l2). rewrite K1, K2, H1, H2, replay_app, filter_app, H3, K3.
    rewrite app_assoc. auto.
Qed.

Lemma tracked_for {A E : Type} (elems : list E) (body : A -> E -> M A) :
  (forall a e, tracked (body a e)) -> forall a, tracked (M_for elems body a).
Proof.
  intros Hb. induction elems as [|e elems IH]; intros a; simpl.
  - apply tracked_ret.
  - apply tracked_bind; [apply Hb | exact IH].
Qed.

Lemma tracked_emit (a : action) :
  is_init a = false -> is_update a = false -> tracked (emit a).
Proof.
  intros Hi Hu w. exists [a]. simpl. rewrite Hi.
  destruct a; try discriminate; auto.
Qed.

Lemma tracked_read_vars : tracked read_vars.
Proof.
  intros w. exists []. unfold read_vars.
  destruct (w_vars w) eqn:Hv; simpl; rewrite app_nil_r; auto.
Qed.

Lemma tracked_shuffle (ids : list nat) : tracked (shuffle ids).
Proof.
  intros w. exists []. unfold shuffle.
  destruct (np_random_shuffle (w_rng w) ids). simpl. rewrite app_nil_r. auto.
Qed.

Lemma tracked_update (theta theta' : vars) :
  tracked (bind (write_vars theta') (fun _ => emit (ApplyGradient theta theta'))).
Proof. intros w. exists [ApplyGradient theta theta']. simpl. auto. Qed.

Lemma tracked_run_cost (self : MLE_Hawkes_Generator) (feed : tensor3) :
  tracked (run_cost self feed).
Proof.
  unfold run_cost, check_feed.
  apply tracked_bind; [apply tracked_lift|]. intros _.
  apply tracked_bind; [apply tracked_read_vars|]. intros theta.
  apply tracked_bind; [apply tracked_emit; reflexivity|]. intros _.
  apply tracked_ret.
Qed.

Lemma tracked_run_optimizer (self : MLE_Hawkes_Generator) (feed : tensor3) :
  tracked (run_optimizer self feed).
Proof.
  unfold run_optimizer, check_feed.
  apply tracked_bind; [apply tracked_lift|]. intros _.
  apply tracked_bind; [apply tracked_read_vars|]. intros theta.
  apply tracked_bind; [apply tracked_emit; reflexivity|]. intros _.
  apply tracked_update.
Qed.

Lemma tracked_train_batch (self : MLE_Hawkes_Generator) (expert_seqs : tensor3)
      (size : nat) (shuffled_ids : list nat) (avg : list scalar) (b : nat) :
  tracked (train_batch self expert_seqs size shuffled_ids avg b).
Proof.
  unfold train_batch.
  apply tracked_bind; [apply tracked_lift|]. intros ids.
  apply tracked_bind; [apply tracked_lift|]. intros feed.
  apply tracked_bind; [apply tracked_run_optimizer|]. intros _.
  apply tracked_bind; [apply tracked_run_cost|]. intros c.
  apply tracked_ret.
Qed.

Lemma tracked_train_epoch (self : MLE_Hawkes_Generator) (expert_seqs : tensor3)
      (size n_data n_batches epoch : nat) :
  tracked (train_epoch self expert_seqs size n_data n_batches epoch).
Proof.
  unfold train_epoch.
  apply tracked_bind; [apply tracked_shuffle|]. intros ids.
  apply tracked_bind; [apply tracked_for; intros; apply tracked_train_batch|].
  intros costs.
  apply tracked_bind; [apply tracked_emit; reflexivity|]. intros _.
  apply tracked_emit; reflexivity.
Qed.

(** *** Coherence of the log with the variables *)

Lemma coherent_app (l1 l2 : list action) (v : option vars) :
  coherent l1 v -> coherent l2 (replay l1 v) -> coherent (l1 ++ l2) v.
Proof.
  revert v. induction l1 as [|a l1 IH]; intros v H1 H2; simpl in *; [exact H2|].
  destruct a; simpl in *.
  - apply IH; assumption.
  - destruct H1 as [Hv H1]. split; [exact Hv | apply IH; assumption].
  - destruct H1 as [Hv H1]. split; [exact Hv | apply IH; assumption].
  - apply IH; assumption.
Qed.

Lemma coherently_ret {A : Type} (a : A) : coherently (ret a).
Proof. intros w. exists []. simpl. rewrite app_nil_r. auto. Qed.

Lemma coherently_lift {A : Type} (c : py A) : coherently (lift c).
Proof. intros w. exists []. simpl. rewrite app_nil_r. auto. Qed.

Lemma coherently_bind {A C : Type} (c : M A) (k : A -> M C) :
  coherently c -> (forall a, coherently (k a)) -> coherently (bind c k).
Proof.
  intros Hc Hk w. destruct (Hc w) as [l1 [H1 [H2 H3]]].
  unfold bind. destruct (c w) as [[e|a] w1]; simpl in *.
  - exists l1. auto.
  - destruct (Hk a w1) as [l2 [K1 [K2 K3]]].
    exists (l1 ++ l2). rewrite K1, K2, H1, H2, replay_app, app_assoc.
    split; [reflexivity|]. split; [reflexivity|].
    apply coherent_app; [exact H3 | rewrite <- H2; exact K3].
Qed.

Lemma coherently_for {A E : Type} (elems : list E) (body : A -> E -> M A) :
  (forall a e, coherently (body a e)) -> forall a, coherently (M_for elems body a).
Proof.
  intros Hb. induction elems as [|e elems IH]; intros a; simpl.
  - apply coherently_ret.
  - apply coherently_bind; [apply Hb | exact IH].
Qed.

Lemma coherently_print (l : line) : coherently (emit (Printed l)).
Proof. intros w. exists [Printed l]. simpl. auto. Qed.

Lemma coherently_shuffle (ids : list nat) : coherently (shuffle ids).
Proof.
  intros w. exists []. unfold shuffle.
  destruct (np_random_shuffle (w_rng w) ids). simpl. rewrite app_nil_r. auto.
Qed.

Lemma coherently_read_vars : coherently read_vars.
Proof.
  intros w. exists []. unfold read_vars.
  destruct (w_vars w) eqn:Hv; simpl; rewrite app_nil_r; auto.
Qed.

Lemma coherently_run_init : coherently run_init.
Proof. intros w. exists [InitVars]. simpl. auto. Qed.

Lemma coherently_run_cost (self : MLE_Hawkes_Generator) (feed : tensor3) :
  coherently (run_cost self feed).
Proof.
  intros w. unfold run_cost, check_feed, bind, lift, read_vars, emit, ret.
  destruct (fits (input_seqs self) feed); simpl.
  - destruct (w_vars w) as [theta|] eqn:Hv; simpl.
    + exists [EvalCost theta feed]. simpl. auto.
    + exists []. rewrite app_nil_r. simpl. auto.
  - exists []. rewrite app_nil_r. simpl. auto.
Qed.

Lemma coherently_run_optimizer (self : MLE_Hawkes_Generator) (feed : tensor3) :
  coherently (run_optimizer self feed).
Proof.
  intros w.
  unfold run_optimizer, check_feed, bind, lift, read_vars, emit, write_vars.
  destruct (fits (input_seqs self) feed); simpl.
  - destruct (w_vars w) as [theta|] eqn:Hv; simpl.
    + eexists [EvalCost theta feed; ApplyGradient theta _]. simpl.
      rewrite <- app_assoc. simpl. auto.
    + exists []. rewrite app_nil_r. simpl. auto.
  - exists []. rewrite app_nil_r. simpl. auto.
Qed.

Lemma coherently_train_epochs (G : globals) (self : MLE_Hawkes_Generator)
      (epoches : nat) (expert_seqs : tensor3) :
  coherently (train_epochs G self epoches expert_seqs).
Proof.
  unfold train_epochs.
  apply coherently_bind; [apply coherently_lift|]. intros size.
  apply coherently_bind; [apply coherently_lift|]. intros n_batches.
  apply coherently_bind.
  - apply coherently_for. intros _ epoch. unfold train_epoch.
    apply coherently_bind; [apply coherently_shuffle|]. intros ids.
    apply coherently_bind.
    + apply coherently_for. intros avg b. unfold train_batch.
      apply coherently_bind; [apply coherently_lift|]. intros bids.
      apply coherently_bind; [apply coherently_lift|]. intros feed.
      apply coherently_bind; [apply coherently_run_optimizer|]. intros _.
      apply coherently_bind; [apply coherently_run_cost|]. intros c.
      apply coherently_ret.
    + intros costs.
      apply coherently_bind; [apply coherently_print|]. intros _.
      apply coherently_print.
  - intros _.
    apply coherently_bind; [apply coherently_read_vars|]. intros theta.
    apply coherently_print.
Qed.

(** C8. Whatever the arguments and the session, and whether [train] returns
    or raises: with [pretrained] false the log of [train] starts with the
    initialisation of the variables (after its message) and has no other
    initialisation; with [pretrained] true it has none; from the start of
    the epochs (the initial values, or with [pretrained] the session's own)
    the log is coherent with the variables at every step: each evaluation of
    the cost and each update of the optimizer is made at the variables that
    the previous updates have left, so that nothing but the optimizer's
    updates has changed them in between; and the variables at the end are
    the logged updates replayed on those of the start. *)
Theorem initialised_once (G : globals) (self : MLE_Hawkes_Generator)
        (epoches : nat) (expert_seqs : tensor3) (pretrained : bool) (w : world) :
  exists l,
    let w' := snd (train G self epoches expert_seqs pretrained w) in
    w_log w' =
    w_log w ++ (if pretrained then [] else [Printed ParametersInitialized; InitVars]) ++ l /\
    filter is_init l = [] /\
    coherent l (if pretrained then w_vars w else Some init_vars) /\
    w_vars w' = replay l (if pretrained then w_vars w else Some init_vars) /\
    (In InitVars (skipn (length (w_log w)) (w_log w')) <-> pretrained = false).
Proof.
  rewrite train_split.
  assert (Ht : tracked (train_epochs G self epoches expert_seqs)).
  { unfold train_epochs.
    apply tracked_bind; [apply tracked_lift|]. intros size.
    apply tracked_bind; [apply tracked_lift|]. intros n_batches.
    apply tracked_bind;
      [apply tracked_for; intros; apply tracked_train_epoch|]. intros _.
    apply tracked_bind; [apply tracked_read_vars|]. intros theta.
    apply tracked_emit; reflexivity. }
  destruct (Ht {| w_vars := start_vars pretrained w; w_rng := w_rng w;
                  w_log := w_log w ++ start_log pretrained |})
    as [l [H1 [H2 H3]]].
  destruct (coherently_train_epochs G self epoches expert_seqs
              {| w_vars := start_vars pretrained w; w_rng := w_rng w;
                 w_log := w_log w ++ start_log pretrained |})
    as [l' [K1 [_ K3]]].
  cbn [w_log w_vars] in H1, H2, K1, K3.
  assert (Hl : l' = l).
  { rewrite H1 in K1. apply app_inv_head in K1. symmetry. exact K1. }
  subst l'.
  exists l. cbv zeta. rewrite H1, H2, <- app_assoc.
  split; [reflexivity|]. split; [exact H3|].
  split; [destruct pretrained; exact K3|]. split; [reflexivity|].
  rewrite skipn_app, skipn_all, Nat.sub_diag. simpl.
  assert (Hno : ~ In InitVars l).
  { intros Hin.
    assert (Hf : In InitVars (filter is_init l))
      by (apply filter_In; split; [exact Hin | reflexivity]).
    rewrite H3 in Hf. exact Hf. }
  destruct pretrained; simpl; split; intros H; try discriminate; try reflexivity.
  - contradiction.
  - right. left. reflexivity.
Qed.


(** *** The free name [batch_size] *)

Lemma scanned_length (n : nat) (feed : tensor3) : length (scanned n feed) = n.
Proof. unfold scanned. rewrite length_map, length_seq. reflexivity. Qed.

(** C9. [log_likelihood] and [train] take [batch_size] from the module's
    globals and never read the field of the object. When the name is not
    bound, the constructor raises [NameError] whatever its arguments, and so
    does [train]. When it is bound to [g], the loop of [log_likelihood] makes
    [g] passes whatever the batch size [B] given to the constructor: for
    [1 <= g <= B] the constructor builds a cost that scans the [g] first
    sequences of a batch (and still divides by [B]); for [g > B] it raises at
    the first slice that is out of the placeholder's bounds instead of
    stopping at [B]; for [g = 0] no sequence is scanned, the log-likelihood
    is the Python float [0.] and the constructor raises ([ZeroDivisionError]
    for [B = 0], and otherwise in [minimize], whose loss is not a tensor).
    [train] behaves the same whatever the field [batch_size] holds, divides
    [n_data] by [g] (raising [ZeroDivisionError] for 0) and runs each epoch
    with [n_data / g] batches of [g] indices. *)
Theorem global_batch_size_is_read (G : globals) (B0 d : nat) (k : option nat)
        (lr : scalar) :
  (forall self n epoches expert_seqs pretrained w,
      train G (set_batch_size self n) epoches expert_seqs pretrained w =
      train G self epoches expert_seqs pretrained w) /\
  match g_batch_size G with
  | None =>
      MLE_Hawkes_Generator_init G B0 d k lr = inl NameError /\
      forall self epoches expert_seqs pretrained w,
        fst (train G self epoches expert_seqs pretrained w) = inl NameError
  | Some g =>
      match g with
      | 0 =>
          log_likelihood_value G {| ph_rows := B0; ph_dim := d |} k =
          inr (PyFloat zero) /\
          MLE_Hawkes_Generator_init G B0 d k lr =
          inl (if B0 =? 0 then ZeroDivisionError else AttributeError)
      | S _ =>
          if (g <=? B0) && (1 <=? d)
          then
            exists self,
              MLE_Hawkes_Generator_init G B0 d k lr = inr self /\
              batch_size self = B0 /\
              forall theta feed,
                length (scanned g feed) = g /\
                calls (cost self theta feed) =
                flat_map (seq_calls theta k) (scanned g feed) /\
                value (cost self theta feed) =
                div_int (neg1_mul (fold_left add (map (seq_sum theta k) (scanned g feed))
                                             zero))
                        B0
          else MLE_Hawkes_Generator_init G B0 d k lr = inl ValueError
      end /\
      forall self epoches expert_seqs pretrained w,
        let w1 := {| w_vars := start_vars pretrained w; w_rng := w_rng w;
                     w_log := w_log w ++ start_log pretrained |} in
        train G self epoches expert_seqs pretrained w =
        match g with
        | 0 => (inl ZeroDivisionError, w1)
        | S _ =>
            bind (M_for (range epoches)
                        (fun (_ : unit) epoch =>
                           train_epoch self expert_seqs g (length expert_seqs)
                                       (length expert_seqs / g) epoch)
                        tt)
                 (fun _ => bind run_vars (fun theta => emit (final_line theta)))
                 w1
        end
  end.
Proof.
  split; [reflexivity|].
  destruct (g_batch_size G) as [g|] eqn:HG.
  - split.
    + destruct g as [|g'].
      * assert (Hv : log_likelihood_value G {| ph_rows := B0; ph_dim := d |} k =
                     inr (PyFloat zero)).
        { unfold log_likelihood_value, lookup_batch_size. rewrite HG. reflexivity. }
        split; [exact Hv|].
        unfold MLE_Hawkes_Generator_init. rewrite Hv.
        cbn [py_bind]. destruct (B0 =? 0); reflexivity.
      * destruct ((S g' <=? B0) && (1 <=? d)) eqn:Hc.
        -- apply andb_prop in Hc. destruct Hc as [Hg Hd].
           apply Nat.leb_le in Hg. apply Nat.leb_le in Hd.
           destruct (init_ok G k lr HG (Nat.lt_0_succ g') Hg Hd) as [ll [Hll Hinit]].
           eexists. split; [exact Hinit|]. split; [reflexivity|].
           intros theta feed. cbn [cost].
           destruct (log_likelihood_inv _ _ _ Hll) as [g0 [HG' [_ Heq]]].
           rewrite HG in HG'. inversion HG'; subst g0.
           destruct (tr_map_value (fun v => div_int (neg1_mul v) B0) (ll theta feed))
             as [Hv Hcs].
           rewrite Hv, Hcs, Heq. cbn [value calls fst snd].
           split; [apply scanned_length|]. split; reflexivity.
        -- assert (Hll : log_likelihood G {| ph_rows := B0; ph_dim := d |} k =
                         inl ValueError).
           { unfold log_likelihood, lookup_batch_size. rewrite HG.
             cbn [py_bind py_ret].
             apply loglik_loop_fail.
             rewrite range_seq. apply Exists_exists. cbn [ph_rows ph_dim].
             apply andb_false_iff in Hc. destruct Hc as [Hc|Hc].
             - apply Nat.leb_gt in Hc. exists B0. split; [apply in_seq; lia | lia].
             - apply Nat.leb_gt in Hc. exists 0. split; [apply in_seq; lia | lia]. }
           rewrite log_likelihood_value_graph in Hll.
           unfold MLE_Hawkes_Generator_init.
           destruct (log_likelihood_value G {| ph_rows := B0; ph_dim := d |} k)
             as [e|v]; cbn [py_bind py_ret] in *; [|discriminate].
           inversion Hll. reflexivity.
    + intros self epoches expert_seqs pretrained w w1.
      rewrite train_split. fold w1. unfold train_epochs.
      unfold bind at 1. unfold lift at 1, lookup_batch_size. rewrite HG. simpl.
      unfold bind at 1. unfold lift at 1.
      destruct g as [|g]; reflexivity.
  - split.
    + unfold MLE_Hawkes_Generator_init, log_likelihood_value, lookup_batch_size.
      rewrite HG. reflexivity.
    + intros self epoches expert_seqs pretrained w.
      rewrite train_split. unfold train_epochs.
      unfold bind at 1. unfold lift at 1, lookup_batch_size. rewrite HG.
      reflexivity.
Qed.

End Properties.

(** ** The properties on the small backend *)

Lemma rotate_permutation (r : nat) (l : list nat) : Permutation (Toy.rotate r l) l.
Proof.
  unfold Toy.rotate.
  apply Permutation_trans
    with (l' := firstn (r mod length l) l ++ skipn (r mod length l) l).
  - apply Permutation_app_comm.
  - rewrite firstn_skipn. apply Permutation_refl.
Qed.

Lemma log_likelihood_total_witness :
  exists loglikli,
    log_likelihood Toy.G2 {| ph_rows := 2; ph_dim := 3 |} None = inr loglikli /\
    value (loglikli init_vars [Toy.seqA; Toy.seqMixed]) = (-6)%Z.
Proof.
  destruct (log_likelihood_total Toy.G2 {| ph_rows := 2; ph_dim := 3 |} None)
    as [ll [Hll Hv]]; [reflexivity | simpl; lia |].
  exists ll. split; [exact Hll|].
  destruct (Hv init_vars [Toy.seqA; Toy.seqMixed]) as [H _]; [reflexivity|].
  rewrite H. reflexivity.
Defined.

Lemma masking_correct_witness :
  exists loglikli,
    log_likelihood Toy.G2 {| ph_rows := 2; ph_dim := 3 |} None = inr loglikli /\
    forall c r,
      In c (calls (loglikli init_vars [Toy.seqMixed; Toy.seqPad])) ->
      gt0 (time r) = false ->
      ~ In r (call_points c).
Proof.
  eexists. split; [reflexivity|].
  destruct (@masking_correct Toy.backend Toy.G2 {| ph_rows := 2; ph_dim := 3 |}
                             None _ init_vars [Toy.seqMixed; Toy.seqPad] eq_refl)
    as (_ & _ & _ & _ & _ & H).
  exact H.
Defined.

Lemma empty_sequence_contributes_zero_witness :
  length (valid_events Toy.seqPad) = 0 /\
  seq_loglik None 0%Z Toy.seqPad init_vars = (0%Z, []).
Proof.
  split; [reflexivity|].
  destruct (@empty_sequence_contributes_zero Toy.backend None 5%Z Toy.seqPad
                                             init_vars eq_refl)
    as (_ & _ & _ & H & _).
  exact H.
Defined.

Lemma cost_is_negated_average_witness :
  MLE_Hawkes_Generator_init Toy.G2 2 3 None 1%Z = inr Toy.self /\
  batch_size Toy.self = 2.
Proof.
  split; [reflexivity|].
  exact (proj1 (@cost_is_negated_average Toy.backend Toy.G2 2 3 None 1%Z
                                         Toy.self eq_refl)).
Defined.

Lemma epoch_batches_partition_witness :
  int_div (length Toy.expert_seqs) 2 = inr 2 /\
  concat (blocks 2 2 (fst (np_random_shuffle 1 (arange (length Toy.expert_seqs))))) =
  [1; 2; 3; 4].
Proof.
  destruct (@epoch_batches_partition Toy.backend Toy.G2 Toy.self 2
              Toy.expert_seqs false Toy.start 2 init_vars
              rotate_permutation eq_refl (le_S 1 1 (le_n 1)) eq_refl eq_refl eq_refl)
    as (H1 & _ & _ & H2).
  split; [exact H1|].
  destruct (H2 1) as (_ & _ & _ & _ & H3 & _).
  etransitivity; [exact H3 | reflexivity].
Defined.

Lemma insufficient_data_no_steps_witness :
  length Toy.expert_seqs < 9 /\
  train Toy.G9 Toy.self 2 Toy.expert_seqs false Toy.start =
  (inr tt,
   {| w_vars := Some init_vars;
      w_rng := 3;
      w_log := [Printed ParametersInitialized; InitVars;
                Printed (EpochLine 0 0 9); Printed (TrainingCost (div_int zero 0));
                Printed (EpochLine 1 0 9); Printed (TrainingCost (div_int zero 0));
                Printed (FinalVars 1%Z 1%Z 1%Z 1%Z)] |}).
Proof.
  assert (Hlt : length Toy.expert_seqs < 9) by (simpl; lia).
  split; [exact Hlt|].
  destruct (@insufficient_data_no_steps Toy.backend Toy.G9 Toy.self 2
              Toy.expert_seqs false Toy.start 9 eq_refl Hlt)
    as (_ & _ & _ & H).
  etransitivity; [exact H | reflexivity].
Defined.

Lemma recorded_cost_after_update_witness :
  exists w',
    train_batch Toy.self Toy.expert_seqs 2 [0; 1; 2; 3; 4] [] 0 Toy.ready =
    (inr [(-3)%Z], w') /\
    w_vars w' = Some {| mu := 3%Z; beta := 1%Z; sigma_x := 1%Z; sigma_y := 1%Z |}.
Proof.
  assert (Hids : Forall (fun i => i < length Toy.expert_seqs) [0; 1; 2; 3; 4])
    by (repeat constructor).
  assert (Hlen : 2 * (0 + 1) <= length [0; 1; 2; 3; 4]) by (simpl; lia).
  destruct (@recorded_cost_after_update Toy.backend Toy.self Toy.expert_seqs 2
              [0; 1; 2; 3; 4] [] 0 Toy.ready init_vars
              Hlen Hids eq_refl eq_refl eq_refl)
    as (w' & H1 & H2 & _).
  exists w'. split.
  - etransitivity; [exact H1 | reflexivity].
  - etransitivity; [exact H2 | reflexivity].
Defined.

(** C7, as the specification states it, fails. One epoch of one batch on the
    small backend: the optimizer's evaluation of the cost is under the
    initial variables ([mu = 1]), not under the variables after its update
    ([mu = 3]), which are the session's variables when [train] returns. *)
Lemma evaluations_not_both_after_update :
  let w' := snd (train Toy.G2 Toy.self 1 [Toy.seqA; Toy.seqB] false Toy.start) in
  w_log w' =
  [Printed ParametersInitialized; InitVars;
   EvalCost {| mu := 1%Z; beta := 1%Z; sigma_x := 1%Z; sigma_y := 1%Z |}
            [Toy.seqB; Toy.seqA];
   ApplyGradient {| mu := 1%Z; beta := 1%Z; sigma_x := 1%Z; sigma_y := 1%Z |}
                 {| mu := 3%Z; beta := 1%Z; sigma_x := 1%Z; sigma_y := 1%Z |};
   EvalCost {| mu := 3%Z; beta := 1%Z; sigma_x := 1%Z; sigma_y := 1%Z |}
            [Toy.seqB; Toy.seqA];
   Printed (EpochLine 0 1 2); Printed (TrainingCost (-3)%Z);
   Printed (FinalVars 3%Z 1%Z 1%Z 1%Z)] /\
  ~ evals_under (w_log w') (w_vars w').
Proof.
  split; [reflexivity|].
  intros H.
  assert (Hin : In (EvalCost {| mu := 1%Z; beta := 1%Z; sigma_x := 1%Z; sigma_y := 1%Z |}
                             [Toy.seqB; Toy.seqA])
                   (w_log (snd (train Toy.G2 Toy.self 1 [Toy.seqA; Toy.seqB]
                                      false Toy.start))))
    by (right; right; left; reflexivity).
  apply H in Hin. vm_compute in Hin. discriminate Hin.
Qed.

(** ** Further properties of the trainer *)

Section MoreProperties.

Context {B : Backend}.

(** *** The prefixes passed to the density *)

Lemma firstn_succ_nth {A : Type} (d : A) (l : list A) (j : nat) :
  j < length l -> firstn (S j) l = firstn j l ++ [nth j l d].
Proof.
  revert j. induction l as [|x l IH]; intros j H; simpl in H; [lia|].
  destruct j as [|j]; [reflexivity|].
  simpl. f_equal. apply IH. lia.
Qed.

Lemma seq_calls_points (theta : vars) (k : option nat) (s : sequence) :
  map call_points (seq_calls theta k s) =
  map (fun i => firstn i (valid_events s)) (seq 1 (length (valid_events s))).
Proof. unfold seq_calls, term_call. rewrite map_map. reflexivity. Qed.

(** X1. The density is never called on an empty prefix: for a sequence with [L]
    valid events the [j]-th call (from 0) receives exactly [j+1] events, the
    prefix of the call before it extended by the next valid event, and the
    last call receives the whole compacted sequence. *)
Theorem prefixes_grow_by_one (k : option nat) (init : scalar) (s : sequence)
        (theta : vars) :
  let prefixes := map call_points (calls (seq_loglik k init s theta)) in
  map (@length row) prefixes = seq 1 (length (valid_events s)) /\
  ~ In [] prefixes /\
  (forall j, j < length (valid_events s) ->
             nth j prefixes [] =
             firstn j (valid_events s) ++ [nth j (valid_events s) []]) /\
  (valid_events s <> [] -> last prefixes [] = valid_events s).
Proof.
  rewrite seq_loglik_eq. cbv zeta. unfold calls. simpl snd.
  rewrite seq_calls_points.
  set (V := valid_events s).
  assert (Hlen : map (@length row) (map (fun i => firstn i V) (seq 1 (length V))) =
                 seq 1 (length V)).
  { rewrite map_map. rewrite <- (map_id (seq 1 (length V))) at 2.
    apply map_ext_in. intros i Hi. apply in_seq in Hi.
    rewrite length_firstn. lia. }
  split; [exact Hlen|]. split; [|split].
  - intros Hin. apply in_map_iff in Hin. destruct Hin as [i [Hi Hin]].
    apply in_seq in Hin.
    assert (Hl : length (firstn i V) = 0) by (rewrite Hi; reflexivity).
    rewrite length_firstn in Hl. lia.
  - intros j Hj.
    rewrite nth_indep with (d' := (fun i => firstn i V) 0)
      by (rewrite length_map, length_seq; exact Hj).
    rewrite (map_nth (fun i => firstn i V)), seq_nth by exact Hj.
    apply firstn_succ_nth. exact Hj.
  - intros Hne. destruct (length V) as [|m] eqn:HL.
    + destruct V; [contradiction | discriminate].
    + rewrite seq_S, map_app.
      change (map (fun i => firstn i V) [1 + m]) with [firstn (S m) V].
      rewrite last_last, <- HL. apply firstn_all.
Qed.

(** *** The calls of a cost evaluation *)

Lemma flat_map_length_sum {A C : Type} (f : A -> list C) (l : list A) :
  length (flat_map f l) = list_sum (map (fun x => length (f x)) l).
Proof.
  induction l as [|x l IH]; simpl; [reflexivity|].
  rewrite length_app, IH. reflexivity.
Qed.

(** X2. In an object built by the constructor, every call of the density during
    an evaluation of the cost receives the cutoff [keep_latest_k] given to
    the constructor and the variables under which the cost is evaluated;
    when the bound [batch_size] is the constructor's, the number of calls on
    a batch is the total number of its valid events. *)
Theorem calls_carry_cutoff_and_variables (G : globals) (B0 d : nat)
        (k : option nat) (lr : scalar) (self : MLE_Hawkes_Generator)
        (theta : vars) (feed : tensor3) :
  MLE_Hawkes_Generator_init G B0 d k lr = inr self ->
  Forall (fun c => call_vars c = theta /\ call_k c = k)
         (calls (cost self theta feed)) /\
  (g_batch_size G = Some B0 ->
   length feed = B0 ->
   length (calls (cost self theta feed)) =
   list_sum (map (fun s => length (filter (fun r => gt0 (time r)) s)) feed)).
Proof.
  intros H. apply init_inv in H. destruct H as [ll [Hll Hself]].
  subst self. simpl.
  destruct (tr_map_value (fun v => div_int (neg1_mul v) B0) (ll theta feed))
    as [_ Hcs].
  rewrite Hcs.
  destruct (log_likelihood_inv _ _ _ Hll) as [g [HG [_ Heq]]].
  rewrite Heq. simpl. split.
  - apply Forall_forall. intros c Hc.
    apply in_flat_map in Hc. destruct Hc as [s [_ Hc]].
    unfold seq_calls in Hc. apply in_map_iff in Hc.
    destruct Hc as [i [Hc _]]. subst c. split; reflexivity.
  - intros HG' Hlen. rewrite HG in HG'. inversion HG'; subst g.
    rewrite <- Hlen, scanned_all, flat_map_length_sum.
    f_equal. apply map_ext. intros s.
    unfold seq_calls. rewrite length_map, length_seq. reflexivity.
Qed.

(** *** Padding *)

Lemma map_through {A V C : Type} (g : A -> V) (h : V -> C) (f : A -> C)
      (l l' : list A) :
  (forall x, f x = h (g x)) -> map g l = map g l' -> map f l = map f l'.
Proof.
  intros Hf Hg.
  rewrite (map_ext f (fun x => h (g x)) Hf l), (map_ext f (fun x => h (g x)) Hf l').
  rewrite <- !(map_map g h), Hg. reflexivity.
Qed.

Lemma scanned_valid_events (g : nat) (feed : tensor3) :
  map valid_events (scanned g feed) = scanned g (map valid_events feed).
Proof.
  unfold scanned. rewrite map_map. apply map_ext. intros b.
  change (@nil row) with (valid_events []) at 2.
  rewrite map_nth. reflexivity.
Qed.

(** X3. The cost of a batch depends on its valid events only: two batches whose
    sequences have the same valid events, whatever their padding rows hold
    and wherever they stand, have the same cost, computed by the same calls
    of the density. *)
Theorem cost_ignores_padding (G : globals) (B0 d : nat)
        (k : option nat) (lr : scalar) (self : MLE_Hawkes_Generator)
        (theta : vars) (feed feed' : tensor3) :
  MLE_Hawkes_Generator_init G B0 d k lr = inr self ->
  map valid_events feed = map valid_events feed' ->
  cost self theta feed = cost self theta feed'.
Proof.
  intros H Hv. apply init_inv in H. destruct H as [ll [Hll Hself]].
  subst self. simpl.
  destruct (log_likelihood_inv _ _ _ Hll) as [g [HG [_ Heq]]].
  rewrite !Heq.
  assert (Hs : map valid_events (scanned g feed) = map valid_events (scanned g feed'))
    by (rewrite !scanned_valid_events, Hv; reflexivity).
  assert (Hsum : map (seq_sum theta k) (scanned g feed) =
                 map (seq_sum theta k) (scanned g feed')).
  { apply (map_through valid_events
             (fun V : sequence =>
                fold_left add
                  (map (fun i => log_conditional_pdf theta (firstn i V) k)
                       (seq 1 (length V))) zero));
      [intros s; reflexivity | exact Hs]. }
  assert (Hcalls : flat_map (seq_calls theta k) (scanned g feed) =
                   flat_map (seq_calls theta k) (scanned g feed')).
  { rewrite !flat_map_concat_map. f_equal.
    apply (map_through valid_events
             (fun V : sequence =>
                map (fun i => {| call_vars := theta;
                                 call_points := firstn i V;
                                 call_k := k |})
                    (seq 1 (length V))));
      [intros s; reflexivity | exact Hs]. }
  rewrite Hsum, Hcalls. reflexivity.
Qed.

(** *** Evaluations and updates at the current variables *)

(** X8. In every run of [train], returning or raising, each evaluation of the
    cost and each update of the optimizer is made at the variables that the
    session holds at that point: the initial values or the session's own at
    the start, then the result of the latest update. In particular every
    update starts from the result of the update before it. *)
Theorem evaluations_at_current_variables (G : globals)
        (self : MLE_Hawkes_Generator) (epoches : nat) (expert_seqs : tensor3)
        (pretrained : bool) (w : world) :
  exists l,
    w_log (snd (train G self epoches expert_seqs pretrained w)) = w_log w ++ l /\
    w_vars (snd (train G self epoches expert_seqs pretrained w)) =
    replay l (w_vars w) /\
    coherent l (w_vars w).
Proof.
  assert (Ht : coherently (train G self epoches expert_seqs pretrained)).
  { unfold train. apply coherently_bind.
    - destruct pretrained; simpl.
      + apply coherently_ret.
      + apply coherently_bind; [apply coherently_print|]. intros _.
        apply coherently_run_init.
    - intros _. unfold train_epochs.
      apply coherently_bind; [apply coherently_lift|]. intros size.
      apply coherently_bind; [apply coherently_lift|]. intros n_batches.
      apply coherently_bind.
      + apply coherently_for. intros _ epoch. unfold train_epoch.
        apply coherently_bind; [apply coherently_shuffle|]. intros ids.
        apply coherently_bind.
        * apply coherently_for. intros avg b. unfold train_batch.
          apply coherently_bind; [apply coherently_lift|]. intros bids.
          apply coherently_bind; [apply coherently_lift|]. intros feed.
          apply coherently_bind; [apply coherently_run_optimizer|]. intros _.
          apply coherently_bind; [apply coherently_run_cost|]. intros c.
          apply coherently_ret.
        * intros costs.
          apply coherently_bind; [apply coherently_print|]. intros _.
          apply coherently_print.
      + intros _.
        apply coherently_bind; [apply coherently_read_vars|]. intros theta.
        apply coherently_print. }
  exact (Ht w).
Qed.

(** *** Indexing stays in bounds *)

Lemma in_bounds_ret {A : Type} (Q : A -> Prop) (a : A) : Q a -> in_bounds Q (ret a).
Proof. intros H w. exact H. Qed.

Lemma in_bounds_bind {A C : Type} (Q : A -> Prop) (R : C -> Prop)
      (c : M A) (k : A -> M C) :
  in_bounds Q c -> (forall a, Q a -> in_bounds R (k a)) -> in_bounds R (bind c k).
Proof.
  intros Hc Hk w. specialize (Hc w). unfold bind.
  destruct (c w) as [[e|a] w1]; simpl in *.
  - exact Hc.
  - apply (Hk a Hc w1).
Qed.

Lemma in_bounds_for {A E : Type} (elems : list E) (body : A -> E -> M A) :
  (forall a e, In e elems -> in_bounds (fun _ => True) (body a e)) ->
  forall a, in_bounds (fun _ => True) (M_for elems body a).
Proof.
  induction elems as [|e elems IH]; intros Hb a; simpl.
  - apply in_bounds_ret. exact I.
  - apply in_bounds_bind with (Q := fun _ => True).
    + apply Hb. left. reflexivity.
    + intros a' _. apply IH. intros a0 e0 H0. apply Hb. right. exact H0.
Qed.

Lemma in_bounds_emit (a : action) : in_bounds (fun _ => True) (emit a).
Proof. intros w. exact I. Qed.

Lemma in_bounds_run_optimizer (self : MLE_Hawkes_Generator) (feed : tensor3) :
  in_bounds (fun _ => True) (run_optimizer self feed).
Proof.
  intros w.
  unfold run_optimizer, check_feed, bind, lift, read_vars, emit, write_vars.
  destruct (fits (input_seqs self) feed); simpl; [|discriminate].
  destruct (w_vars w); simpl; [exact I | discriminate].
Qed.

Lemma in_bounds_run_cost (self : MLE_Hawkes_Generator) (feed : tensor3) :
  in_bounds (fun _ => True) (run_cost self feed).
Proof.
  intros w. unfold run_cost, check_feed, bind, lift, read_vars, emit, ret.
  destruct (fits (input_seqs self) feed); simpl; [|discriminate].
  destruct (w_vars w); simpl; [exact I | discriminate].
Qed.

Lemma in_bounds_train_batch (self : MLE_Hawkes_Generator) (expert_seqs : tensor3)
      (size : nat) (shuffled_ids : list nat) (avg : list scalar) (b : nat) :
  size * (b + 1) <= length shuffled_ids ->
  Forall (fun i => i < length expert_seqs) shuffled_ids ->
  in_bounds (fun _ => True) (train_batch self expert_seqs size shuffled_ids avg b).
Proof.
  intros Hlen Hids. unfold train_batch.
  rewrite arange2_block, take_seq by lia.
  assert (Hblock : Forall (fun i => i < length expert_seqs)
                          (firstn size (skipn (size * b) shuffled_ids))).
  { apply Forall_forall. intros i Hi.
    apply in_firstn_in in Hi.
    assert (In i shuffled_ids).
    { rewrite <- (firstn_skipn (size * b) shuffled_ids).
      apply in_or_app. right. exact Hi. }
    rewrite Forall_forall in Hids. auto. }
  intros w. unfold bind at 1. unfold lift at 1.
  rewrite (take_gather expert_seqs [] Hblock).
  unfold bind at 1. unfold lift at 1.
  revert w.
  apply in_bounds_bind with (Q := fun _ => True);
    [apply in_bounds_run_optimizer|]. intros _ _.
  apply in_bounds_bind with (Q := fun _ => True);
    [apply in_bounds_run_cost|]. intros c _.
  apply in_bounds_ret. exact I.
Qed.

(** X4. Whatever its arguments and the session, [train] does not raise
    [IndexError]: when the shuffle returns a permutation of its argument,
    every index that [train] computes into the shuffled indices and into the
    data is in bounds. *)
Theorem train_indices_in_bounds (G : globals) (self : MLE_Hawkes_Generator)
        (epoches : nat) (expert_seqs : tensor3) (pretrained : bool) (w : world) :
  (forall r l, Permutation (fst (np_random_shuffle r l)) l) ->
  fst (train G self epoches expert_seqs pretrained w) <> inl IndexError.
Proof.
  intros HP.
  assert (Ht : in_bounds (fun _ => True) (train G self epoches expert_seqs pretrained)).
  { unfold train. apply in_bounds_bind with (Q := fun _ => True).
    - destruct pretrained; simpl; intros w0; exact I.
    - intros _ _. unfold train_epochs.
      apply in_bounds_bind with (Q := fun _ => True).
      + intros w0. unfold lift, lookup_batch_size. simpl.
        destruct (g_batch_size G); simpl; [exact I | discriminate].
      + intros size _.
        apply in_bounds_bind
          with (Q := fun n_batches => size * n_batches <= length expert_seqs).
        * intros w0.
          destruct size as [|size];
            cbv beta iota delta [lift int_div py_ret py_raise fst];
            [discriminate|].
          apply Nat.Div0.mul_div_le.
        * intros n_batches Hn.
          apply in_bounds_bind with (Q := fun _ => True).
          -- apply in_bounds_for. intros _ epoch _. unfold train_epoch.
             apply in_bounds_bind
               with (Q := fun ids => Permutation ids (seq 0 (length expert_seqs))).
             ++ intros w0. unfold shuffle.
                destruct (np_random_shuffle (w_rng w0) (arange (length expert_seqs)))
                  as [ids r'] eqn:Hs. simpl.
                specialize (HP (w_rng w0) (arange (length expert_seqs))).
                rewrite Hs in HP. simpl in HP.
                unfold arange in HP. rewrite range_seq in HP. exact HP.
             ++ intros ids Hids. apply permutation_bound in Hids.
                destruct Hids as [Hlen Hids].
                apply in_bounds_bind with (Q := fun _ => True).
                ** apply in_bounds_for. intros avg b Hb.
                   rewrite range_seq in Hb. apply in_seq in Hb.
                   apply in_bounds_train_batch; [nia | exact Hids].
                ** intros costs _.
                   apply in_bounds_bind with (Q := fun _ => True);
                     [apply in_bounds_emit|]. intros _ _. apply in_bounds_emit.
          -- intros _ _.
             apply in_bounds_bind with (Q := fun _ => True).
             ++ intros w0. unfold run_vars, read_vars.
                destruct (w_vars w0); simpl; [exact I | discriminate].
             ++ intros theta _. apply in_bounds_emit. }
  specialize (Ht w). intros Hc. rewrite Hc in Ht. apply Ht. reflexivity.
Qed.

(** *** A first batch that the session refuses *)

Lemma shuffle_bound (r : rng) (n : nat) :
  (forall r l, Permutation (fst (np_random_shuffle r l)) l) ->
  length (fst (np_random_shuffle r (arange n))) = n /\
  Forall (fun i => i < n) (fst (np_random_shuffle r (arange n))).
Proof.
  intros HP. apply permutation_bound.
  rewrite <- range_seq. apply (HP r (arange n)).
Qed.

Lemma train_first_step_raises (G : globals) (self : MLE_Hawkes_Generator)
      (epoches : nat) (expert_seqs : tensor3) (pretrained : bool) (w : world)
      (size : nat) (e : exn) :
  (forall r l, Permutation (fst (np_random_shuffle r l)) l) ->
  g_batch_size G = Some size ->
  0 < size <= length expert_seqs ->
  0 < epoches ->
  (forall w1 : world,
      w_vars w1 = start_vars pretrained w ->
      run_optimizer self
        (gather expert_seqs
           (firstn size (fst (np_random_shuffle (w_rng w)
                                                (arange (length expert_seqs))))))
        w1 = (inl e, w1)) ->
  train G self epoches expert_seqs pretrained w =
  (inl e,
   {| w_vars := start_vars pretrained w;
      w_rng := snd (np_random_shuffle (w_rng w) (arange (length expert_seqs)));
      w_log := w_log w ++ start_log pretrained |}).
Proof.
  intros HP HG [Hpos Hle] He Hrun.
  rewrite train_split. unfold train_epochs.
  unfold bind at 1. unfold lift at 1, lookup_batch_size. rewrite HG. simpl.
  unfold bind at 1. unfold lift at 1. rewrite (int_div_pos _ Hpos).
  unfold bind at 1. rewrite range_seq.
  destruct epoches as [|epoches]; [lia|].
  cbn [seq M_for]. unfold bind at 1.
  unfold train_epoch. unfold bind at 1. unfold shuffle. cbn [w_rng w_vars w_log].
  specialize (HP (w_rng w) (arange (length expert_seqs))).
  destruct (np_random_shuffle (w_rng w) (arange (length expert_seqs)))
    as [ids r'] eqn:Hs.
  cbn [fst snd] in *.
  unfold arange in HP. rewrite range_seq in HP.
  apply permutation_bound in HP. destruct HP as [Hlen Hids].
  assert (Hnb : exists m, length expert_seqs / size = S m).
  { destruct (length expert_seqs / size) as [|m] eqn:Hd; [|exists m; reflexivity].
    apply Nat.div_small_iff in Hd; lia. }
  destruct Hnb as [m Hm]. rewrite Hm, range_seq.
  cbn [seq M_for]. unfold bind at 1. unfold bind at 1.
  unfold train_batch.
  rewrite arange2_block, take_seq by lia.
  rewrite Nat.mul_0_r. cbn [skipn].
  assert (Hblock : Forall (fun i => i < length expert_seqs) (firstn size ids)).
  { apply Forall_forall. intros i Hi. apply in_firstn_in in Hi.
    rewrite Forall_forall in Hids. auto. }
  unfold bind at 1. unfold lift at 1.
  rewrite (take_gather expert_seqs [] Hblock).
  unfold bind at 1. unfold lift at 1.
  fold (gather expert_seqs (firstn size ids)).
  unfold bind at 1. rewrite Hrun by reflexivity. reflexivity.
Qed.

(** X5. When the bound [batch_size] is not the batch dimension of the
    placeholder and the data has at least one batch, [train] raises
    [ValueError] at its first optimizer run: the batch it feeds has
    [batch_size] sequences, which does not fit. Nothing is evaluated or
    updated; the session keeps the variables of the start, the generator has
    shuffled once, and the log has only the initialisation. *)
Theorem mismatched_batch_size_raises (G : globals) (self : MLE_Hawkes_Generator)
        (epoches : nat) (expert_seqs : tensor3) (pretrained : bool) (w : world)
        (size : nat) :
  (forall r l, Permutation (fst (np_random_shuffle r l)) l) ->
  g_batch_size G = Some size ->
  0 < size <= length expert_seqs ->
  0 < epoches ->
  ph_rows (input_seqs self) <> size ->
  train G self epoches expert_seqs pretrained w =
  (inl ValueError,
   {| w_vars := start_vars pretrained w;
      w_rng := snd (np_random_shuffle (w_rng w) (arange (length expert_seqs)));
      w_log := w_log w ++ start_log pretrained |}).
Proof.
  intros HP HG Hsize He Hne.
  apply train_first_step_raises with (size := size); try assumption.
  intros w1 _.
  unfold run_optimizer, check_feed, bind, lift, fits.
  assert (Hl : length (gather expert_seqs
                         (firstn size (fst (np_random_shuffle (w_rng w)
                                              (arange (length expert_seqs)))))) = size).
  { unfold gather. rewrite length_map, length_firstn.
    destruct (shuffle_bound (w_rng w) (length expert_seqs) HP) as [Hlen _].
    rewrite Hlen. lia. }
  rewrite Hl.
  destruct (size =? ph_rows (input_seqs self)) eqn:Hq.
  - apply Nat.eqb_eq in Hq. congruence.
  - reflexivity.
Qed.

(** X6. A warm start on a session whose variables were never initialised: with
    [pretrained] true, a batch size that fits and data for at least one
    batch, [train] raises [FailedPreconditionError] at its first optimizer
    run, before any evaluation of the cost. *)
Theorem warm_start_needs_initialised_session (G : globals)
        (self : MLE_Hawkes_Generator) (epoches : nat) (expert_seqs : tensor3)
        (w : world) (size : nat) :
  (forall r l, Permutation (fst (np_random_shuffle r l)) l) ->
  g_batch_size G = Some size ->
  0 < size <= length expert_seqs ->
  0 < epoches ->
  ph_rows (input_seqs self) = size ->
  rows_dim (ph_dim (input_seqs self)) expert_seqs = true ->
  w_vars w = None ->
  train G self epoches expert_seqs true w =
  (inl FailedPreconditionError,
   {| w_vars := None;
      w_rng := snd (np_random_shuffle (w_rng w) (arange (length expert_seqs)));
      w_log := w_log w |}).
Proof.
  intros HP HG Hsize He Hrows Hdim Hv.
  rewrite (@train_first_step_raises G self epoches expert_seqs true w size
             FailedPreconditionError HP HG Hsize He).
  - simpl. rewrite Hv, app_nil_r. reflexivity.
  - intros w1 Hw1. simpl in Hw1. rewrite Hv in Hw1.
    unfold run_optimizer, check_feed, bind, lift, read_vars.
    rewrite gather_fits; try assumption.
    + simpl. rewrite Hw1. reflexivity.
    + destruct (shuffle_bound (w_rng w) (length expert_seqs) HP) as [_ Hids].
      apply Forall_forall. intros i Hi. apply in_firstn_in in Hi.
      rewrite Forall_forall in Hids. auto.
    + rewrite length_firstn.
      destruct (shuffle_bound (w_rng w) (length expert_seqs) HP) as [Hlen _].
      rewrite Hlen. lia.
Qed.

(** *** How many steps a run makes *)

Lemma run_batches_counts (self : MLE_Hawkes_Generator) (feeds : list tensor3) :
  forall theta,
    length (snd (fst (run_batches self feeds theta))) = length feeds /\
    length (filter is_update (snd (run_batches self feeds theta))) = length feeds /\
    length (filter is_eval (snd (run_batches self feeds theta))) = 2 * length feeds.
Proof.
  induction feeds as [|feed feeds IH]; intros theta; simpl; [auto|].
  specialize (IH (sgd_step self theta feed)).
  destruct (run_batches self feeds (sgd_step self theta feed))
    as [[theta_end costs] log].
  simpl in *. destruct IH as [H1 [H2 H3]]. rewrite H1, H2, H3.
  repeat split; lia.
Qed.

Lemma run_epochs_counts (self : MLE_Hawkes_Generator) (expert_seqs : tensor3)
      (size n_batches : nat) (epochs : list nat) :
  forall theta r,
    snd (fst (run_epochs self expert_seqs size n_batches epochs theta r)) =
    rng_after (length expert_seqs) epochs r /\
    length (filter is_update
                   (snd (run_epochs self expert_seqs size n_batches epochs theta r))) =
    length epochs * n_batches /\
    length (filter is_eval
                   (snd (run_epochs self expert_seqs size n_batches epochs theta r))) =
    2 * (length epochs * n_batches).
Proof.
  induction epochs as [|e epochs IH]; intros theta r; simpl; [auto|].
  destruct (np_random_shuffle r (arange (length expert_seqs))) as [ids r'].
  destruct (run_batches_counts self
              (map (gather expert_seqs) (blocks size n_batches ids)) theta)
    as [_ [H2 H3]].
  rewrite length_map, blocks_length in H2, H3.
  destruct (run_batches self _ theta) as [[theta' costs] log].
  specialize (IH theta' r').
  destruct (run_epochs self expert_seqs size n_batches epochs theta' r')
    as [[theta_end r_end] log_end].
  simpl in *. destruct IH as [K1 [K2 K3]].
  rewrite !filter_app, !length_app. simpl.
  rewrite H2, H3, K2, K3.
  split; [exact K1|]. split; lia.
Qed.

(** X7. A run of [train] that fits (bound positive [batch_size] equal to the
    placeholder's batch dimension, rows of the right size, variables
    available, a shuffle that permutes) returns normally after exactly
    [epoches * floor(n_data / batch_size)] updates of the optimizer and twice
    as many evaluations of the cost, and it shuffles exactly once per epoch. *)
Theorem steps_of_a_run (G : globals) (self : MLE_Hawkes_Generator)
        (epoches : nat) (expert_seqs : tensor3) (pretrained : bool) (w : world)
        (size : nat) (theta : vars) :
  (forall r l, Permutation (fst (np_random_shuffle r l)) l) ->
  g_batch_size G = Some size ->
  0 < size ->
  ph_rows (input_seqs self) = size ->
  rows_dim (ph_dim (input_seqs self)) expert_seqs = true ->
  start_vars pretrained w = Some theta ->
  let n_batches := length expert_seqs / size in
  let out := train G self epoches expert_seqs pretrained w in
  fst out = inr tt /\
  length (filter is_update (w_log (snd out))) =
  length (filter is_update (w_log w)) + epoches * n_batches /\
  length (filter is_eval (w_log (snd out))) =
  length (filter is_eval (w_log w)) + 2 * (epoches * n_batches) /\
  w_rng (snd out) = rng_after (length expert_seqs) (seq 0 epoches) (w_rng w).
Proof.
  intros HP HG Hsize Hrows Hdim Hv n_batches out. subst out.
  rewrite (train_ok G self epoches expert_seqs pretrained w HP HG Hsize Hrows Hdim Hv).
  destruct (run_epochs_counts self expert_seqs size n_batches (seq 0 epoches)
                              theta (w_rng w)) as [H1 [H2 H3]].
  fold n_batches.
  destruct (run_epochs self expert_seqs size n_batches (seq 0 epoches) theta (w_rng w))
    as [[theta_end r_end] log].
  simpl in *. rewrite length_seq in H2, H3.
  rewrite !filter_app, !length_app, H2, H3.
  assert (Hs : filter is_update (start_log pretrained) = [] /\
               filter is_eval (start_log pretrained) = [])
    by (destruct pretrained; split; reflexivity).
  destruct Hs as [Hs1 Hs2]. rewrite Hs1, Hs2. simpl.
  split; [reflexivity|]. split; [lia|]. split; [lia | exact H1].
Qed.

(** *** The script *)

Lemma steps_count_fresh (ppg : MLE_Hawkes_Generator) (seqs : tensor3) (r : rng) :
  (forall r l, Permutation (fst (np_random_shuffle r l)) l) ->
  ph_rows (input_seqs ppg) = 50 ->
  rows_dim (ph_dim (input_seqs ppg)) seqs = true ->
  fst (train script_globals ppg 15 seqs false
             {| w_vars := None; w_rng := r; w_log := [] |}) = inr tt /\
  length (filter is_update
            (w_log (snd (train script_globals ppg 15 seqs false
                               {| w_vars := None; w_rng := r; w_log := [] |})))) =
  15 * (length seqs / 50).
Proof.
  intros HP Hrows Hd.
  assert (HG : g_batch_size script_globals = Some 50) by reflexivity.
  assert (Hpos : 0 < 50) by lia.
  rewrite (@train_ok B script_globals ppg 15 seqs false
             {| w_vars := None; w_rng := r; w_log := [] |} 50 init_vars
             HP HG Hpos Hrows Hd eq_refl).
  destruct (run_epochs_counts ppg seqs 50 (length seqs / 50) (seq 0 15) init_vars r)
    as [_ [H2 _]].
  cbn [w_rng w_log].
  destruct (run_epochs ppg seqs 50 (length seqs / 50) (seq 0 15) init_vars r)
    as [[theta_end r_end] log].
  cbn [fst snd w_log] in *. split; [reflexivity|].
  rewrite length_seq in H2.
  rewrite !filter_app, !length_app, H2. simpl. lia.
Qed.


(** X9. The script's block builds its object without an exception, since it
    binds [batch_size] before and passes that same value; on data whose rows
    have three numbers it then trains from the initial values for 15 epochs
    of [floor(n_data / 50)] batches of 50 sequences and returns normally,
    after [15 * floor(n_data / 50)] updates, having logged the initialisation
    first and the final variables last. *)
Theorem script_session_trains (seqs : tensor3) (lr : scalar) (r : rng) :
  (forall r l, Permutation (fst (np_random_shuffle r l)) l) ->
  rows_dim 3 seqs = true ->
  exists ppg,
    MLE_Hawkes_Generator_init script_globals 50 3 None lr = inr ppg /\
    script_session seqs lr r =
    (let '(theta_end, r_end, log) :=
       run_epochs ppg seqs 50 (length seqs / 50) (seq 0 15) init_vars r in
     (inr tt,
      {| w_vars := Some theta_end; w_rng := r_end;
         w_log := [Printed ParametersInitialized; InitVars] ++ log ++
                  [final_line theta_end] |})) /\
    length (filter is_update (w_log (snd (script_session seqs lr r)))) =
    15 * (length seqs / 50).
Proof.
  intros HP Hdim.
  assert (HG : g_batch_size script_globals = Some 50) by reflexivity.
  assert (Hinit : exists ppg,
             MLE_Hawkes_Generator_init script_globals 50 3 None lr = inr ppg /\
             input_seqs ppg = {| ph_rows := 50; ph_dim := 3 |}).
  { destruct (@init_ok B script_globals 50 3 None lr 50 HG) as [ll [_ Hi]];
      [lia | lia | lia |].
    eexists. split; [exact Hi | reflexivity]. }
  destruct Hinit as [ppg [Hppg Hph]].
  exists ppg. split; [exact Hppg|].
  assert (Hrows : ph_rows (input_seqs ppg) = 50) by (rewrite Hph; reflexivity).
  assert (Hd : rows_dim (ph_dim (input_seqs ppg)) seqs = true)
    by (rewrite Hph; exact Hdim).
  assert (Hpos : 0 < 50) by lia.
  unfold script_session. rewrite Hppg.
  split.
  - rewrite (@train_ok B script_globals ppg 15 seqs false
               {| w_vars := None; w_rng := r; w_log := [] |} 50 init_vars
               HP HG Hpos Hrows Hd eq_refl).
    reflexivity.
  - destruct (@steps_count_fresh ppg seqs r HP Hrows Hd) as [_ H]. exact H.
Qed.

(** *** The report at the end, and a batch size of zero *)

(** X10. When a run of [train] fits, the last line it logs reports the variables
    that the session holds when [train] returns. *)
Theorem final_report_is_final_variables (G : globals) (self : MLE_Hawkes_Generator)
        (epoches : nat) (expert_seqs : tensor3) (pretrained : bool) (w : world)
        (size : nat) (theta : vars) :
  (forall r l, Permutation (fst (np_random_shuffle r l)) l) ->
  g_batch_size G = Some size ->
  0 < size ->
  ph_rows (input_seqs self) = size ->
  rows_dim (ph_dim (input_seqs self)) expert_seqs = true ->
  start_vars pretrained w = Some theta ->
  let out := train G self epoches expert_seqs pretrained w in
  exists theta_end,
    w_vars (snd out) = Some theta_end /\
    last (w_log (snd out)) InitVars =
    Printed (FinalVars (mu theta_end) (beta theta_end)
                       (sigma_x theta_end) (sigma_y theta_end)).
Proof.
  intros HP HG Hsize Hrows Hdim Hv out. subst out.
  rewrite (train_ok G self epoches expert_seqs pretrained w HP HG Hsize Hrows Hdim Hv).
  destruct (run_epochs self expert_seqs size (length expert_seqs / size)
                       (seq 0 epoches) theta (w_rng w))
    as [[theta_end r_end] log].
  exists theta_end. cbn [snd w_vars w_log]. split; [reflexivity|].
  rewrite !app_assoc. apply last_last.
Qed.

(** X11. With [batch_size] bound to 0 the loop of [log_likelihood] has no pass
    and it returns the Python float [0.], not a tensor: the constructor never
    returns an object, it raises [ZeroDivisionError] at line 31 when its own
    [batch_size] is 0 and otherwise in [minimize], whose loss is a float;
    and [train], on an object built earlier, raises [ZeroDivisionError] when
    it computes the number of batches, after the initialisation and before
    any shuffle. *)
Theorem batch_size_zero (G : globals) (B0 d : nat) (k : option nat) (lr : scalar) :
  g_batch_size G = Some 0 ->
  log_likelihood_value G {| ph_rows := B0; ph_dim := d |} k = inr (PyFloat zero) /\
  MLE_Hawkes_Generator_init G B0 d k lr =
  inl (if B0 =? 0 then ZeroDivisionError else AttributeError) /\
  (forall self epoches expert_seqs pretrained w,
      train G self epoches expert_seqs pretrained w =
      (inl ZeroDivisionError,
       {| w_vars := start_vars pretrained w; w_rng := w_rng w;
          w_log := w_log w ++ start_log pretrained |})).
Proof.
  intros HG.
  assert (Hv : log_likelihood_value G {| ph_rows := B0; ph_dim := d |} k =
               inr (PyFloat zero)).
  { unfold log_likelihood_value, lookup_batch_size. rewrite HG. reflexivity. }
  split; [exact Hv|]. split.
  - unfold MLE_Hawkes_Generator_init. rewrite Hv.
    cbn [py_bind]. destruct (B0 =? 0); reflexivity.
  - intros self epoches expert_seqs pretrained w.
    rewrite train_split. unfold train_epochs.
    unfold bind at 1. unfold lift at 1, lookup_batch_size. rewrite HG.
    reflexivity.
Qed.

End MoreProperties.

(** ** The further properties on the small backend *)

Lemma calls_carry_cutoff_and_variables_witness :
  length (calls (cost Toy.self init_vars [Toy.seqA; Toy.seqMixed])) = 4.
Proof.
  destruct (@calls_carry_cutoff_and_variables Toy.backend Toy.G2 2 3 None 1%Z
              Toy.self init_vars [Toy.seqA; Toy.seqMixed] eq_refl)
    as [_ H].
  etransitivity; [exact (H eq_refl eq_refl) | reflexivity].
Defined.

Lemma cost_ignores_padding_witness :
  map valid_events [Toy.seqA; Toy.seqB] = map valid_events [Toy.seqA'; Toy.seqB] /\
  cost Toy.self init_vars [Toy.seqA; Toy.seqB] =
  cost Toy.self init_vars [Toy.seqA'; Toy.seqB].
Proof.
  split; [reflexivity|].
  exact (@cost_ignores_padding Toy.backend Toy.G2 2 3 None 1%Z Toy.self init_vars
           [Toy.seqA; Toy.seqB] [Toy.seqA'; Toy.seqB] eq_refl eq_refl).
Defined.

Lemma train_indices_in_bounds_witness :
  fst (train Toy.G1 Toy.self 2 Toy.expert_seqs false Toy.start) <> inl IndexError.
Proof.
  exact (@train_indices_in_bounds Toy.backend Toy.G1 Toy.self 2 Toy.expert_seqs
           false Toy.start rotate_permutation).
Defined.

Lemma mismatched_batch_size_raises_witness :
  ph_rows (input_seqs Toy.self) <> 1 /\
  fst (train Toy.G1 Toy.self 2 Toy.expert_seqs false Toy.start) = inl ValueError.
Proof.
  assert (Hne : ph_rows (input_seqs Toy.self) <> 1) by (simpl; lia).
  assert (Hsize : 0 < 1 <= length Toy.expert_seqs) by (simpl; lia).
  assert (He : 0 < 2) by lia.
  split; [exact Hne|].
  rewrite (@mismatched_batch_size_raises Toy.backend Toy.G1 Toy.self 2
             Toy.expert_seqs false Toy.start 1 rotate_permutation eq_refl
             Hsize He Hne).
  reflexivity.
Defined.

Lemma warm_start_needs_initialised_session_witness :
  fst (train Toy.G2 Toy.self 2 Toy.expert_seqs true Toy.start) =
  inl FailedPreconditionError.
Proof.
  assert (Hsize : 0 < 2 <= length Toy.expert_seqs) by (simpl; lia).
  assert (He : 0 < 2) by lia.
  rewrite (@warm_start_needs_initialised_session Toy.backend Toy.G2 Toy.self 2
             Toy.expert_seqs Toy.start 2 rotate_permutation eq_refl
             Hsize He eq_refl eq_refl eq_refl).
  reflexivity.
Defined.

Lemma steps_of_a_run_witness :
  length (filter is_update
            (w_log (snd (train Toy.G2 Toy.self 2 Toy.expert_seqs false Toy.start)))) = 4.
Proof.
  assert (Hpos : 0 < 2) by lia.
  destruct (@steps_of_a_run Toy.backend Toy.G2 Toy.self 2 Toy.expert_seqs false
              Toy.start 2 init_vars rotate_permutation eq_refl Hpos
              eq_refl eq_refl eq_refl)
    as (_ & H & _).
  etransitivity; [exact H | reflexivity].
Defined.

Lemma script_session_trains_witness :
  length Toy.many_seqs = 105 /\
  rows_dim 3 Toy.many_seqs = true /\
  length (filter is_update (w_log (snd (script_session Toy.many_seqs 1%Z 1)))) = 30.
Proof.
  split; [reflexivity|]. split; [reflexivity|].
  destruct (@script_session_trains Toy.backend Toy.many_seqs 1%Z 1
              rotate_permutation eq_refl)
    as (ppg & _ & _ & H).
  etransitivity; [exact H | reflexivity].
Defined.

Lemma final_report_is_final_variables_witness :
  exists theta_end,
    w_vars (snd (train Toy.G2 Toy.self 2 Toy.expert_seqs false Toy.start)) =
    Some theta_end /\
    last (w_log (snd (train Toy.G2 Toy.self 2 Toy.expert_seqs false Toy.start)))
         InitVars =
    Printed (FinalVars (mu theta_end) (beta theta_end)
                       (sigma_x theta_end) (sigma_y theta_end)).
Proof.
  assert (Hpos : 0 < 2) by lia.
  exact (@final_report_is_final_variables Toy.backend Toy.G2 Toy.self 2
           Toy.expert_seqs false Toy.start 2 init_vars rotate_permutation eq_refl
           Hpos eq_refl eq_refl eq_refl).
Defined.

Lemma batch_size_zero_witness :
  MLE_Hawkes_Generator_init Toy.G0 2 3 None 1%Z = inl AttributeError /\
  MLE_Hawkes_Generator_init Toy.G0 0 3 None 1%Z = inl ZeroDivisionError /\
  fst (train Toy.G0 Toy.self 2 Toy.expert_seqs false Toy.start) =
  inl ZeroDivisionError.
Proof.
  destruct (@batch_size_zero Toy.backend Toy.G0 2 3 None 1%Z eq_refl)
    as (_ & H2 & H3).
  destruct (@batch_size_zero Toy.backend Toy.G0 0 3 None 1%Z eq_refl)
    as (_ & H0 & _).
  split; [exact H2|]. split; [exact H0|].
  rewrite H3. reflexivity.
Defined.
